(** * go-safeweb: the XSRF interceptor of [safehttp/plugins/xsrf/xsrf.go]

    A shallow embedding of the package [xsrf] and of the values of the
    framework it consumes, followed by the properties of its two checkers,
    its two generators, its two injectors and the interceptor that drives
    them. *)

From Stdlib Require Import ZArith NArith Lia Ascii String List.
From Stdlib.Strings Require Import Byte.
From stdpp Require Import base option strings pretty list gmap finite.

Local Open Scope Z_scope.
Local Open Scope string_scope.

(** A Go [error] is carried by its message; [None] is the nil error. *)
Definition error : Type := string.

(** ** The framework: package [safehttp]

    The package is imported by [xsrf.go] and is not under src/: what the
    interceptor consumes of it is modelled here, from section 6 of the
    specification. *)

Module safehttp.

(** Modelled from the spec: [safehttp.StatusCode], an integer type whose
    constants are the HTTP status codes. *)
Definition StatusCode : Type := Z.

(** Modelled from the spec: the OK status. *)
Definition StatusOK : StatusCode := 200.

(** Modelled from the spec: the status of a malformed request. *)
Definition StatusBadRequest : StatusCode := 400.

(** Modelled from the spec: the "unauthorized" status. *)
Definition StatusUnauthorized : StatusCode := 401.

(** Modelled from the spec: the "forbidden" status. *)
Definition StatusForbidden : StatusCode := 403.

(** Modelled from the spec: the generic server error status. *)
Definition StatusInternalServerError : StatusCode := 500.

(** Modelled from the spec: the three state-preserving methods, by their
    names in HTTP. *)
Definition MethodGet : string := "GET".

(** Modelled from the spec: see [MethodGet]. *)
Definition MethodHead : string := "HEAD".

(** Modelled from the spec: see [MethodGet]. *)
Definition MethodOptions : string := "OPTIONS".

(** Modelled from the spec: the SameSite mode of a cookie. *)
Inductive SameSite : Type :=
| SameSiteLaxMode
| SameSiteStrictMode
| SameSiteNoneMode.

(** Modelled from the spec: [safehttp.Cookie] is not under src/. A cookie
    with the attributes the interceptor reads and sets: value, SameSite
    mode, Path, Max-Age and the HTTP-only flag. *)
Record Cookie : Type := mkCookie {
  Name : string;
  Value : string;
  sameSite : SameSite;
  path : string;
  maxAge : Z;
  httpOnly : bool
}.

(** Modelled from the spec: [safehttp.NewCookie] is not under src/. A new
    cookie is HTTP-only by default; SameSite starts as Lax, and Path and
    Max-Age start unset. *)
Definition NewCookie (name value : string) : Cookie :=
  {| Name := name; Value := value; sameSite := SameSiteLaxMode;
     path := ""; maxAge := 0; httpOnly := true |}.

(** Modelled from the spec: [c.SetSameSite(s)] sets the SameSite mode and
    nothing else. *)
Definition SetSameSite (c : Cookie) (s : SameSite) : Cookie :=
  {| Name := Name c; Value := Value c; sameSite := s;
     path := path c; maxAge := maxAge c; httpOnly := httpOnly c |}.

(** Modelled from the spec: [c.SetPath(p)] sets the Path and nothing else. *)
Definition SetPath (c : Cookie) (p : string) : Cookie :=
  {| Name := Name c; Value := Value c; sameSite := sameSite c;
     path := p; maxAge := maxAge c; httpOnly := httpOnly c |}.

(** Modelled from the spec: [c.SetMaxAge(a)] sets Max-Age, in seconds, and
    nothing else. *)
Definition SetMaxAge (c : Cookie) (a : Z) : Cookie :=
  {| Name := Name c; Value := Value c; sameSite := sameSite c;
     path := path c; maxAge := a; httpOnly := httpOnly c |}.

(** Modelled from the spec: [c.DisableHTTPOnly()] makes the cookie readable
    by scripts and changes nothing else. *)
Definition DisableHTTPOnly (c : Cookie) : Cookie :=
  {| Name := Name c; Value := Value c; sameSite := sameSite c;
     path := path c; maxAge := maxAge c; httpOnly := false |}.

(** Modelled from the spec: [safehttp.Form] is not under src/. Parsed form
    fields with a string accessor that takes an explicit not-found default;
    a field that is present has a first value. [formErr] is the error an
    accessor has recorded on the form, returned by [Err]. *)
Record Form : Type := mkForm {
  values : gmap string (string * list string);
  formErr : option error
}.

(** Modelled from the spec: [f.String(param, defaultValue)], the first value
    of the field, or the default when the field is not there. *)
Definition Form_String (f : Form) (param defaultValue : string) : string :=
  match values f !! param with
  | None => defaultValue
  | Some (v, _) => v
  end.

(** Modelled from the spec: [f.Err()], the error recorded on the form. *)
Definition Form_Err (f : Form) : option error := formErr f.

(** Modelled from the spec: [safehttp.MultipartForm] embeds a [Form]; the
    uploaded files play no part here. *)
Record MultipartForm : Type := mkMultipartForm {
  multipartFields : Form
}.

(** Modelled from the spec: [safehttp.IncomingRequest] is not under src/.
    The request as its typed accessors show it. Decoding a body is the
    framework's work, so the request holds what each of the two parsers
    returns; the multipart parser is given its memory cap. *)
Record IncomingRequest : Type := mkRequest {
  method : string;
  URLPath : string;
  cookies : list Cookie;
  Header : gmap string (list string);
  postForm : Form + error;
  multipartForm : Z -> MultipartForm + error
}.

(** Modelled from the spec: [r.Method()]. *)
Definition Method (r : IncomingRequest) : string := method r.

(** Modelled from the spec: the error of a cookie lookup that finds
    nothing. *)
Definition ErrNoCookie : error := "http: named cookie not present".

(** Modelled from the spec: [r.Cookie(name)], the first cookie of that name,
    or an error when there is none. *)
Definition Cookie_of (r : IncomingRequest) (name : string) : Cookie + error :=
  match List.find (fun c => String.eqb (Name c) name) (cookies r) with
  | Some c => inl c
  | None => inr ErrNoCookie
  end.

(** Modelled from the spec: [r.PostForm()], the URL-encoded form of the body
    or an error. *)
Definition PostForm (r : IncomingRequest) : Form + error := postForm r.

(** Modelled from the spec: [r.MultipartForm(maxMemory)], the multipart form
    of the body read under the cap, or an error. *)
Definition MultipartForm_of (r : IncomingRequest) (maxMemory : Z)
  : MultipartForm + error := multipartForm r maxMemory.

(** Modelled from the spec: [r.Header.Get(name)], the first value stored
    under the name, or the empty string. Names are looked up as stored. *)
Definition Header_Get (h : gmap string (list string)) (name : string) : string :=
  match h !! name with
  | Some (v :: _) => v
  | _ => ""
  end.

(** Modelled from the spec: [safehttp.Result], an empty struct. *)
Inductive Result : Type := mkResult.

(** Modelled from the spec: [safehttp.NotWritten()], the result that tells
    the framework to carry on. *)
Definition NotWritten : Result := mkResult.

(** Modelled from the spec: [safehttp.ResponseWriter] is not under src/.
    The writer as the record of what was done to it: the error statuses
    written and the cookies set, most recent first. [cookieFault] is the
    error [SetCookie] reports when the Set-Cookie header cannot be
    written. *)
Record ResponseWriter : Type := mkWriter {
  written : list StatusCode;
  setCookies : list Cookie;
  cookieFault : option error
}.

(** Modelled from the spec: [w.WriteError(code)] writes a response that
    carries the status code and nothing more. *)
Definition WriteError (w : ResponseWriter) (code : StatusCode)
  : Result * ResponseWriter :=
  (mkResult,
   {| written := code :: written w; setCookies := setCookies w;
      cookieFault := cookieFault w |}).

(** Modelled from the spec: [w.SetCookie(c)] sets the cookie, or returns an
    error and sets nothing. *)
Definition SetCookie (w : ResponseWriter) (c : Cookie)
  : option error * ResponseWriter :=
  match cookieFault w with
  | Some e => (Some e, w)
  | None =>
      (None,
       {| written := written w; setCookies := c :: setCookies w;
          cookieFault := None |})
  end.

(** Modelled from the spec: [safehttp.TemplateResponse] is not under src/.
    A template-backed response exposes a mutable map from names to
    functions. The functions bound here take no argument and return a
    string, and the map is an allocated one, which an assignment extends. *)
Record TemplateResponse : Type := mkTemplateResponse {
  FuncMap : gmap string (unit -> string)
}.

(** Modelled from the spec: [safehttp.Response] is not under src/. A response
    is template-backed or something else. *)
Inductive Response : Type :=
| ofTemplate (t : TemplateResponse)
| ofOther.

End safehttp.

(** ** [encoding/base64]: the standard encoding, with padding *)

Module base64.

(** Modelled from the spec: the alphabet of the standard base64 encoding
    (RFC 4648, table 1); the package is of the Go library. *)
Definition encodeStd : string :=
  "ABCDEFGHIJKLMNOPQRSTUVWXYZabcdefghijklmnopqrstuvwxyz0123456789+/".

(** Modelled from the spec: the padding character of the encoding. *)
Definition padChar : ascii := "="%char.

(** Modelled from the spec: the character of the six low bits of [v] in the
    alphabet. *)
Definition encode (v : N) : ascii :=
  match String.get (N.to_nat (N.land v 63)) encodeStd with
  | Some c => c
  | None => padChar
  end.

(** Modelled from the spec: a byte as an unsigned integer. *)
Definition uint (b : byte) : N := Byte.to_N b.

(** Modelled from the spec: [StdEncoding.EncodeToString]. Three bytes make a
    24-bit value that gives four characters; a last group of one or two
    bytes is completed with padding. *)
Fixpoint EncodeToString (src : list byte) : string :=
  match src with
  | [] => ""
  | [a] =>
      let val := N.shiftl (uint a) 16 in
      String (encode (N.shiftr val 18))
        (String (encode (N.shiftr val 12))
           (String padChar (String padChar "")))
  | [a; b] =>
      let val := N.lor (N.shiftl (uint a) 16) (N.shiftl (uint b) 8) in
      String (encode (N.shiftr val 18))
        (String (encode (N.shiftr val 12))
           (String (encode (N.shiftr val 6)) (String padChar "")))
  | a :: b :: c :: rest =>
      let val :=
        N.lor (N.lor (N.shiftl (uint a) 16) (N.shiftl (uint b) 8)) (uint c) in
      String (encode (N.shiftr val 18))
        (String (encode (N.shiftr val 12))
           (String (encode (N.shiftr val 6))
              (String (encode val) (EncodeToString rest))))
  end.

End base64.

(** ** [crypto/rand]: the process-wide random source *)

Module rand.

(** Modelled from the spec: the random source, which is of the Go library,
    as the bytes it still has to give and the error it reports once they run
    out. *)
Record Reader : Type := mkReader {
  entropy : list byte;
  fault : error
}.

(** Modelled from the spec: [rand.Read(buf)] for a buffer of [n] bytes. The
    buffer is filled and the error is nil, or an error is returned. The
    buffer comes back with the reader that remains. *)
Definition Read (n : nat) (rd : Reader) : (list byte * option error) * Reader :=
  if (n <=? List.length (entropy rd))%nat
  then ((take n (entropy rd), None),
        {| entropy := drop n (entropy rd); fault := fault rd |})
  else (((entropy rd ++ replicate (n - List.length (entropy rd)) x00)%list,
         Some (fault rd)),
        {| entropy := []; fault := fault rd |}).

End rand.

(** ** [golang.org/x/net/xsrftoken]: the token codec *)

Module xsrftoken.

(** The codec is an import of the package and is taken as a parameter. Both
    of its functions read the clock, so each takes the instant of the call,
    in milliseconds. *)
Class Codec : Type := {
  Generate : Z -> string -> string -> string -> string;
  Valid : Z -> string -> string -> string -> string -> bool
}.

End xsrftoken.

(** ** The token codec of the specification

    The code of golang.org/x/net/xsrftoken is not under src/. Sections 3 and
    4.1 of the specification call the codec HMAC-based and give the token as
    HMAC(SecretKey, SessionIdentifier || RequestPath || time-bucket). HMAC is
    the keyed construction of that name over a hash function [H] with blocks
    of [B] bytes. The specification names neither and leaves the validity
    window open, so the three are parameters. *)

Module TokenCodec.

Section HMAC.

Variable H : list byte -> list byte.
Variable B : nat.
Variable window : Z.

(** Modelled from the spec: a byte of the key xor-ed with a pad byte. *)
Definition xorByte (pad : N) (b : byte) : byte :=
  default x00 (Byte.of_N (N.lxor (Byte.to_N b) pad)).

(** Modelled from the spec: the key of one block of HMAC. A key longer than
    a block is hashed first, and the key is then filled up with zero
    bytes. *)
Definition blockKey (key : list byte) : list byte :=
  let key := if (B <? List.length key)%nat then H key else key in
  (key ++ replicate (B - List.length key) x00)%list.

(** Modelled from the spec: HMAC, the hash of the block key under the outer
    pad 0x5c followed by the hash of the block key under the inner pad 0x36
    followed by the message. *)
Definition hmac (key msg : list byte) : list byte :=
  let k := blockKey key in
  H (map (xorByte 92) k ++ H (map (xorByte 54) k ++ msg))%list.

(** Modelled from the spec: the time bucket of an instant, which counts the
    windows elapsed. *)
Definition bucket (t : Z) : Z := t / window.

(** Modelled from the spec: a string of the message, framed by its length.
    Section 4.1 has tokens computed for a different path or session
    identifier rejected, so the three parts of the message must be told
    apart: each string is preceded by its length in decimal and a colon. *)
Definition frame (s : string) : list byte :=
  (list_byte_of_string (pretty (String.length s)) ++ x3a
     :: list_byte_of_string s)%list.

(** Modelled from the spec: SessionIdentifier || RequestPath || time-bucket,
    the two strings framed and the bucket in decimal. *)
Definition message (sessionID path : string) (t : Z) : list byte :=
  (frame sessionID ++ frame path
     ++ list_byte_of_string (pretty (bucket t)))%list.

(** Modelled from the spec: [Generate(secret, sessionID, path) -> Token], a
    deterministic HMAC computation tied to the triple and to the time bucket
    of the instant [t] of the call. *)
Definition Generate (t : Z) (secret sessionID path : string) : string :=
  string_of_list_byte (hmac (list_byte_of_string secret) (message sessionID path t)).

(** Modelled from the spec: [Validate(token, secret, sessionID, path) ->
    bool] recomputes the token at the instant [t] of the check and compares;
    a malformed token is merely unequal. *)
Definition Validate (t : Z) (token secret sessionID path : string) : bool :=
  String.eqb token (Generate t secret sessionID path).

(** Modelled from the spec: the codec, as the interceptor takes it. *)
Definition codec : xsrftoken.Codec :=
  {| xsrftoken.Generate := Generate; xsrftoken.Valid := Validate |}.

(** The input of the inner hash of HMAC and the input of the outer one. *)
Definition innerInput (key msg : list byte) : list byte :=
  (map (xorByte 54) (blockKey key) ++ msg)%list.

Definition outerInput (key msg : list byte) : list byte :=
  (map (xorByte 92) (blockKey key) ++ H (innerInput key msg))%list.

(** The hash function has one digest for these two different inputs. *)
Definition collides (x y : list byte) : Prop :=
  x <> y /\ H x = H y.

(** The key before it is filled up: the hash of a key longer than a block,
    the key itself otherwise. *)
Definition effectiveKey (key : list byte) : list byte :=
  if (B <? List.length key)%nat then H key else key.

(** One byte string is the other followed by zero bytes only. *)
Definition sameUpToZeros (a b : list byte) : Prop :=
  exists n, a = (b ++ replicate n x00)%list \/ b = (a ++ replicate n x00)%list.

End HMAC.

(** A hash function to run the codec with: a polynomial checksum of the
    input, modulo 2^32, written on four bytes. *)
Definition checksum (x : list byte) : N :=
  fold_left (fun acc b => ((acc * 257 + Byte.to_N b + 1) mod 4294967296)%N) x 0%N.

Definition byteOf (n : N) : byte :=
  default x00 (Byte.of_N (n mod 256)%N).

Definition checksumHash (x : list byte) : list byte :=
  let c := checksum x in
  [byteOf (N.shiftr c 24); byteOf (N.shiftr c 16); byteOf (N.shiftr c 8);
   byteOf c].

(** A secret of 70 bytes, longer than a block of 64, and another one. *)
Definition longSecret : string :=
  "0123456789012345678901234567890123456789012345678901234567890123456789".

Definition otherLongSecret : string :=
  "0123456789012345678901234567890123456789012345678901234567890123456780".

End TokenCodec.

(** ** Package [xsrf] *)

Module xsrf.

Import safehttp.

(** [statePreservingMethods]: a Go map; a key that is absent reads as
    [false]. *)
Definition statePreservingMethods : gmap string bool :=
  <[MethodOptions := true]> (<[MethodHead := true]> (<[MethodGet := true]> ∅)).

Definition isStatePreserving (m : string) : bool :=
  default false (statePreservingMethods !! m).

(** The structs of the package. Several of them share field names, so each
    field carries the initials of its struct before its name. *)
Record defaultGenerator : Type := mkDefaultGenerator {
  dg_secretAppKey : string;
  dg_cookieIDKey : string
}.

Record defaultData : Type := mkDefaultData {
  dd_cookieID : Cookie;
  dd_token : string;
  dd_setCookie : bool
}.

Record defaultChecker : Type := mkDefaultChecker {
  dc_secretAppKey : string;
  dc_cookieIDKey : string;
  dc_tokenKey : string
}.

Inductive defaultInjector : Type := mkDefaultInjector.

Record angularGenerator : Type := mkAngularGenerator {
  ag_tokenCookieName : string
}.

Record angularData : Type := mkAngularData {
  ad_tokCookie : Cookie;
  ad_setCookie : bool
}.

Record angularChecker : Type := mkAngularChecker {
  ac_tokenCookieName : string;
  ac_tokenHeaderName : string
}.

Inductive angularInjector : Type := mkAngularInjector.

(** [GeneratedData] is the empty interface: nil, a value of one of the two
    payload types of the package, or a value of a type of the caller's. *)
Inductive GeneratedData : Type :=
| nilData
| ofDefaultData (d : defaultData)
| ofAngularData (d : angularData)
| ofForeign (typeName : string).

(** The three interfaces. A generator draws on the random source, an
    injector acts on the response and on its writer; both are threaded
    through. *)
Class Checker (C : Type) : Type :=
  Check : C -> IncomingRequest -> StatusCode.

Class Generator (G : Type) : Type :=
  Generate : G -> IncomingRequest -> rand.Reader ->
             (GeneratedData * option error) * rand.Reader.

Class Injector (I : Type) : Type :=
  Inject : I -> Response -> ResponseWriter -> GeneratedData ->
           (option error * ResponseWriter) * Response.

Record Interceptor (G C I : Type) : Type := mkInterceptor {
  secretAppKey : string;
  g : G;
  c : C;
  i : I
}.

Arguments mkInterceptor {G C I} _ _ _ _.
Arguments secretAppKey {G C I} _.
Arguments g {G C I} _.
Arguments c {G C I} _.
Arguments i {G C I} _.

Definition New {G C I : Type} (key : string) (gen : G) (chk : C) (inj : I)
  : Interceptor G C I :=
  {| secretAppKey := key; g := gen; c := chk; i := inj |}.

Definition Default (key : string)
  : Interceptor defaultGenerator defaultChecker defaultInjector :=
  {| secretAppKey := key;
     g := {| dg_secretAppKey := key; dg_cookieIDKey := "xsrf-cookie" |};
     c := {| dc_secretAppKey := key; dc_cookieIDKey := "xsrf-cookie";
             dc_tokenKey := "xsrf-token" |};
     i := mkDefaultInjector |}.

Definition Angular (cookieName headerName : string)
  : Interceptor angularGenerator angularChecker angularInjector :=
  {| secretAppKey := "";
     g := {| ag_tokenCookieName := cookieName |};
     c := {| ac_tokenCookieName := cookieName;
             ac_tokenHeaderName := headerName |};
     i := mkAngularInjector |}.

(** [Before] and [Commit] ignore their [InterceptorConfig] argument, which is
    left out. *)
Definition Before {G C I : Type} {checker : Checker C} (it : Interceptor G C I)
    (w : ResponseWriter) (r : IncomingRequest) : Result * ResponseWriter :=
  let code := Check (c it) r in
  if negb (Z.eqb code StatusOK)
  then WriteError w code
  else (NotWritten, w).

Definition Commit {G C I : Type}
    {generator : Generator G} {injector : Injector I}
    (it : Interceptor G C I) (w : ResponseWriter) (r : IncomingRequest)
    (resp : Response) (rd : rand.Reader)
  : ((Result * ResponseWriter) * Response) * rand.Reader :=
  let '((data, err), rd) := Generate (g it) r rd in
  match err with
  | Some _ =>
      let '(res, w) := WriteError w StatusInternalServerError in
      (((res, w), resp), rd)
  | None =>
      let '((err, w), resp) := Inject (i it) resp w data in
      match err with
      | Some _ =>
          let '(res, w) := WriteError w StatusInternalServerError in
          (((res, w), resp), rd)
      | None => (((mkResult, w), resp), rd)
      end
  end.

Section Strategies.

Context {codec : xsrftoken.Codec}.

(** The instant at which the hook runs. *)
Variable now : Z.

Definition defaultGenerator_Generate (g : defaultGenerator)
    (r : IncomingRequest) (rd : rand.Reader)
  : (GeneratedData * option error) * rand.Reader :=
  let minted :=
    match Cookie_of r (dg_cookieIDKey g) with
    | inl c => inl (c, false, rd)
    | inr _ =>
        let '((buf, err), rd) := rand.Read 20 rd in
        match err with
        | Some err => inr ((nilData, Some ("crypto/rand.Read: " +:+ err)), rd)
        | None =>
            let c := NewCookie (dg_cookieIDKey g) (base64.EncodeToString buf) in
            let c := SetSameSite c SameSiteStrictMode in
            inl (c, true, rd)
        end
    end in
  match minted with
  | inr failed => failed
  | inl (c, setCookie, rd) =>
      let tok :=
        xsrftoken.Generate now (dg_secretAppKey g) (Value c) (URLPath r) in
      ((ofDefaultData
          {| dd_cookieID := c; dd_token := tok; dd_setCookie := setCookie |},
        None), rd)
  end.

Definition defaultChecker_Check (c : defaultChecker) (r : IncomingRequest)
  : StatusCode :=
  if isStatePreserving (Method r) then StatusOK else
  match Cookie_of r (dc_cookieIDKey c) with
  | inr _ => StatusForbidden
  | inl cookie =>
      let form :=
        match PostForm r with
        | inl f => inl f
        | inr _ =>
            match MultipartForm_of r (Z.shiftl 32 20) with
            | inr _ => inr StatusBadRequest
            | inl mf => inl (multipartFields mf)
            end
        end in
      match form with
      | inr code => code
      | inl f =>
          let tok := Form_String f (dc_tokenKey c) "" in
          if bool_decide (Form_Err f ≠ None) || String.eqb tok ""
          then StatusUnauthorized
          else if negb (xsrftoken.Valid now tok (dc_secretAppKey c)
                          (Value cookie) (URLPath r))
          then StatusForbidden
          else StatusOK
      end
  end.

Definition defaultInjector_Inject (i : defaultInjector) (resp : Response)
    (w : ResponseWriter) (data : GeneratedData)
  : (option error * ResponseWriter) * Response :=
  match data with
  | ofDefaultData d =>
      let '(err, w) :=
        if dd_setCookie d then SetCookie w (dd_cookieID d) else (None, w) in
      match err with
      | Some err => ((Some err, w), resp)
      | None =>
          match resp with
          | ofTemplate tmplResp =>
              ((None, w),
               ofTemplate
                 {| FuncMap :=
                      <["XSRFToken" := fun _ : unit => dd_token d]>
                        (FuncMap tmplResp) |})
          | ofOther => ((None, w), resp)
          end
      end
  | _ => ((Some "invalid data received", w), resp)
  end.

Definition angularGenerator_Generate (g : angularGenerator)
    (r : IncomingRequest) (rd : rand.Reader)
  : (GeneratedData * option error) * rand.Reader :=
  let minted :=
    match Cookie_of r (ag_tokenCookieName g) with
    | inl c => inl (c, false, rd)
    | inr _ =>
        let '((tok, err), rd) := rand.Read 20 rd in
        match err with
        | Some err => inr ((nilData, Some ("crypto/rand.Read: " +:+ err)), rd)
        | None =>
            let c :=
              NewCookie (ag_tokenCookieName g) (base64.EncodeToString tok) in
            let c := SetSameSite c SameSiteStrictMode in
            let c := SetPath c "/" in
            let c := SetMaxAge c 86400 in
            let c := DisableHTTPOnly c in
            inl (c, true, rd)
        end
    end in
  match minted with
  | inr failed => failed
  | inl (c, setCookie, rd) =>
      ((ofAngularData {| ad_tokCookie := c; ad_setCookie := setCookie |},
        None), rd)
  end.

Definition angularChecker_Check (c : angularChecker) (r : IncomingRequest)
  : StatusCode :=
  if isStatePreserving (Method r) then StatusOK else
  match Cookie_of r (ac_tokenCookieName c) with
  | inr _ => StatusForbidden
  | inl cookie =>
      let tok := Header_Get (Header r) (ac_tokenHeaderName c) in
      if String.eqb tok "" || negb (String.eqb tok (Value cookie))
      then StatusUnauthorized
      else StatusOK
  end.

Definition angularInjector_Inject (i : angularInjector) (resp : Response)
    (w : ResponseWriter) (data : GeneratedData)
  : (option error * ResponseWriter) * Response :=
  match data with
  | ofAngularData d =>
      let '(err, w) :=
        if ad_setCookie d then SetCookie w (ad_tokCookie d) else (None, w) in
      match err with
      | Some err => ((Some err, w), resp)
      | None => ((None, w), resp)
      end
  | _ => ((Some "invalid data received", w), resp)
  end.

#[export] Instance defaultGenerator_Generator : Generator defaultGenerator :=
  defaultGenerator_Generate.
#[export] Instance defaultChecker_Checker : Checker defaultChecker :=
  defaultChecker_Check.
#[export] Instance defaultInjector_Injector : Injector defaultInjector :=
  defaultInjector_Inject.
#[export] Instance angularGenerator_Generator : Generator angularGenerator :=
  angularGenerator_Generate.
#[export] Instance angularChecker_Checker : Checker angularChecker :=
  angularChecker_Check.
#[export] Instance angularInjector_Injector : Injector angularInjector :=
  angularInjector_Inject.

End Strategies.

(** *** Vocabulary of the specification *)

(** The state-preserving methods of the glossary: GET, HEAD and OPTIONS. *)
Definition statePreserving (m : string) : Prop :=
  m = MethodGet \/ m = MethodHead \/ m = MethodOptions.

(** The form a request bears: its URL-encoded form or, when the body is not
    one, its multipart form read with a cap of 32 MiB. *)
Definition bodyForm (r : IncomingRequest) : option Form :=
  match PostForm r with
  | inl f => Some f
  | inr _ =>
      match MultipartForm_of r (32 * 1024 * 1024) with
      | inl mf => Some (multipartFields mf)
      | inr _ => None
      end
  end.

(** The random source cannot fill a buffer of 20 bytes. *)
Definition readFails (rd : rand.Reader) : Prop :=
  snd (fst (rand.Read 20 rd)) <> None.

(** What a generator returns: the payload, the error, the reader left. *)
Definition payload (out : (GeneratedData * option error) * rand.Reader)
  : GeneratedData := fst (fst out).

Definition failure (out : (GeneratedData * option error) * rand.Reader)
  : option error := snd (fst out).

End xsrf.

(** ** Concrete requests, on which the checks are run *)

Module Examples.

Import safehttp xsrf.

(** A codec for running the checkers: the token spells out its triple and
    does not expire. *)
Definition plainCodec : xsrftoken.Codec :=
  {| xsrftoken.Generate := fun _ key userID actionID =>
       key +:+ ":" +:+ userID +:+ ":" +:+ actionID;
     xsrftoken.Valid := fun _ token key userID actionID =>
       String.eqb token (key +:+ ":" +:+ userID +:+ ":" +:+ actionID) |}.

Definition noForm : Form + error := inr "not a URL-encoded form".

Definition noMultipart (maxMemory : Z) : MultipartForm + error :=
  inr "not a multipart form".

Definition formWith (field value : string) : Form :=
  {| values := {[ field := (value, []) ]}; formErr := None |}.

Definition sessionCookie (value : string) : Cookie :=
  NewCookie "xsrf-cookie" value.

(** GET, with no cookie, no body and no header. *)
Definition getBare : IncomingRequest :=
  {| method := "GET"; URLPath := "/pizza"; cookies := []; Header := ∅;
     postForm := noForm; multipartForm := noMultipart |}.

(** POST, with no cookie. *)
Definition postNoCookie : IncomingRequest :=
  {| method := "POST"; URLPath := "/pizza"; cookies := []; Header := ∅;
     postForm := inl (formWith "xsrf-token" "key:abcdef:/pizza");
     multipartForm := noMultipart |}.

(** POST, with the session cookie and a body that is no form. *)
Definition postNoBody : IncomingRequest :=
  {| method := "POST"; URLPath := "/pizza";
     cookies := [sessionCookie "abcdef"]; Header := ∅;
     postForm := noForm; multipartForm := noMultipart |}.

(** POST, with the session cookie and a form with no token field. *)
Definition postNoToken : IncomingRequest :=
  {| method := "POST"; URLPath := "/pizza";
     cookies := [sessionCookie "abcdef"]; Header := ∅;
     postForm := inl (formWith "topping" "ham");
     multipartForm := noMultipart |}.

(** POST, with the session cookie and a token made for another path. *)
Definition postOtherPath : IncomingRequest :=
  {| method := "POST"; URLPath := "/pizza";
     cookies := [sessionCookie "abcdef"]; Header := ∅;
     postForm := inl (formWith "xsrf-token" "key:abcdef:/spaghetti");
     multipartForm := noMultipart |}.

(** POST, with the session cookie and the token of its path, in a
    URL-encoded form. *)
Definition postValid : IncomingRequest :=
  {| method := "POST"; URLPath := "/pizza";
     cookies := [sessionCookie "abcdef"]; Header := ∅;
     postForm := inl (formWith "xsrf-token" "key:abcdef:/pizza");
     multipartForm := noMultipart |}.

(** POST, with the same token in a multipart form. *)
Definition postMultipart : IncomingRequest :=
  {| method := "POST"; URLPath := "/pizza";
     cookies := [sessionCookie "abcdef"]; Header := ∅;
     postForm := noForm;
     multipartForm := fun maxMemory =>
       if Z.eqb maxMemory 33554432
       then inl {| multipartFields := formWith "xsrf-token" "key:abcdef:/pizza" |}
       else inr "multipart form over the cap" |}.

(** POST for the header strategy: the cookie and its echo in the header. *)
Definition postEcho (cookieValue headerValue : string) : IncomingRequest :=
  {| method := "POST"; URLPath := "/pizza";
     cookies := [NewCookie "XSRF-TOKEN" cookieValue];
     Header := {[ "X-XSRF-TOKEN" := [headerValue] ]};
     postForm := noForm; multipartForm := noMultipart |}.

Definition blankWriter : ResponseWriter :=
  {| written := []; setCookies := []; cookieFault := None |}.

(** A writer whose Set-Cookie header is out of reach. *)
Definition claimedWriter : ResponseWriter :=
  {| written := []; setCookies := [];
     cookieFault := Some "The header Set-Cookie is claimed" |}.

Definition twentyBytes : list byte :=
  [x00; x01; x02; x03; x04; x05; x06; x07; x08; x09;
   x0a; x0b; x0c; x0d; x0e; x0f; x10; x11; x12; x13].

Definition fullReader : rand.Reader :=
  {| rand.entropy := twentyBytes; rand.fault := "unexpected EOF" |}.

Definition dryReader : rand.Reader :=
  {| rand.entropy := []; rand.fault := "unexpected EOF" |}.

End Examples.

(** ** What a response and a request show *)

Module Views.

Import safehttp xsrf.

(** What the function bound under a name in the map of a template-backed
    response returns; nothing for a name that is not bound and for a
    response of another kind. *)
Definition bound (resp : Response) (name : string) : option string :=
  match resp with
  | ofTemplate t => (fun f => f tt) <$> FuncMap t !! name
  | ofOther => None
  end.

(** The response after the assignment [tmplResp.FuncMap[name] = func() string
    { return tok }], which only a template-backed response takes. *)
Definition bind (resp : Response) (name tok : string) : Response :=
  match resp with
  | ofTemplate t =>
      ofTemplate {| FuncMap := <[name := fun _ : unit => tok]> (FuncMap t) |}
  | ofOther => ofOther
  end.

(** What the Default checker reads of the body of a request: the value of
    the token field of the form it bears, empty when the field is not there,
    and the error recorded on that form. *)
Definition formView (tokenKey : string) (r : IncomingRequest)
  : option (string * option error) :=
  (fun f => (Form_String f tokenKey "", Form_Err f)) <$> bodyForm r.

(** What a checker reads of a cookie: whether it is there, and its value. *)
Definition cookieView (name : string) (r : IncomingRequest) : string + unit :=
  sum_map Value (fun _ => tt) (Cookie_of r name).

(** A request with another multipart parser. *)
Definition withMultipart (r : IncomingRequest)
    (mf : Z -> MultipartForm + error) : IncomingRequest :=
  {| method := method r; URLPath := URLPath r; cookies := cookies r;
     Header := Header r; postForm := postForm r; multipartForm := mf |}.

End Views.

(** ** A first visit and the request that follows it *)

Module Sessions.

Import safehttp xsrf.

(** The base64 encoding of [Examples.twentyBytes]. *)
Definition mintedValue : string := "AAECAwQFBgcICQoLDA0ODxAREhM=".

(** The cookie the Default generator mints from those bytes. *)
Definition mintedCookie : Cookie :=
  SetSameSite (NewCookie "xsrf-cookie" mintedValue) SameSiteStrictMode.

(** The token of [Examples.plainCodec] for the key "key", that cookie and
    the path "/pizza". *)
Definition mintedToken : string := "key:AAECAwQFBgcICQoLDA0ODxAREhM=:/pizza".

Definition mintedPayload : defaultData :=
  {| dd_cookieID := mintedCookie; dd_token := mintedToken;
     dd_setCookie := true |}.

(** A template-backed response with one function bound already. *)
Definition page : TemplateResponse :=
  {| FuncMap := {[ "Title" := fun _ : unit => "Menu" ]} |}.

(** The POST that follows the first visit: the minted cookie comes back, and
    the form holds the token next to another field. *)
Definition followUp : IncomingRequest :=
  {| method := "POST"; URLPath := "/pizza";
     cookies := [NewCookie "lang" "it"; NewCookie "xsrf-cookie" mintedValue];
     Header := {[ "Accept" := ["text/html"] ]};
     postForm :=
       inl {| values := {[ "xsrf-token" := (mintedToken, []);
                           "topping" := ("ham", []) ]};
              formErr := None |};
     multipartForm := Examples.noMultipart |}.

(** The same POST as a browser of the header strategy sends it. *)
Definition followUpEcho : IncomingRequest :=
  Examples.postEcho mintedValue mintedValue.

End Sessions.

(** * Properties *)

(** ** The base64 encoding *)

Module Base64Facts.

Import base64.

(** The test vectors of RFC 4648, section 10. *)
Example EncodeToString_rfc4648 :
  map (fun s => EncodeToString (list_byte_of_string s))
    [""; "f"; "fo"; "foo"; "foob"; "fooba"; "foobar"]
  = [""; "Zg=="; "Zm8="; "Zm9v"; "Zm9vYg=="; "Zm9vYmE="; "Zm9vYmFy"].
Proof. vm_compute. reflexivity. Qed.

(** Every group of three bytes, the last one possibly short, gives four
    characters. *)
Lemma EncodeToString_length (src : list byte) :
  String.length (EncodeToString src) = (4 * ((List.length src + 2) / 3))%nat.
Proof.
  enough (Hall :
    String.length (EncodeToString src)
      = (4 * ((List.length src + 2) / 3))%nat /\
    (forall a, String.length (EncodeToString (a :: src))
      = (4 * ((List.length (a :: src) + 2) / 3))%nat) /\
    (forall a b, String.length (EncodeToString (a :: b :: src))
      = (4 * ((List.length (a :: b :: src) + 2) / 3))%nat))
    by apply Hall.
  induction src as [|c src (IH0 & IH1 & IH2)].
  - repeat split.
  - split; [apply IH1|]. split; [intros a; apply IH2|].
    intros a b.
    change (String.length (EncodeToString (a :: b :: c :: src)))
      with (S (S (S (S (String.length (EncodeToString src)))))).
    rewrite IH0.
    replace (List.length (a :: b :: c :: src) + 2)%nat
      with (List.length src + 2 + 1 * 3)%nat by (simpl; lia).
    rewrite Nat.div_add by discriminate. lia.
Qed.

End Base64Facts.

Module XsrfFacts.

Import safehttp xsrf.

(** ** The method table *)

Lemma isStatePreserving_iff (m : string) :
  isStatePreserving m = true <->
  m = MethodGet \/ m = MethodHead \/ m = MethodOptions.
Proof.
  unfold isStatePreserving, statePreservingMethods.
  rewrite !lookup_insert, lookup_empty.
  destruct (decide (MethodOptions = m)) as [Ho|Ho]; [simpl; intuition|].
  destruct (decide (MethodHead = m)) as [Hh|Hh]; [simpl; intuition|].
  destruct (decide (MethodGet = m)) as [Hg|Hg]; [simpl; intuition|].
  simpl. split; [discriminate|]. intros [Heq|[Heq|Heq]]; congruence.
Qed.

Ltac status_discr :=
  intros; cbn [orb] in *;
  unfold StatusOK, StatusBadRequest, StatusUnauthorized, StatusForbidden,
    StatusInternalServerError in *; congruence.

Lemma not_statePreserving_false (m : string) :
  ~ statePreserving m -> isStatePreserving m = false.
Proof.
  intros Hm. destruct (isStatePreserving m) eqn:E; [|reflexivity].
  apply isStatePreserving_iff in E. contradiction.
Qed.

Lemma shift_32_20 : Z.shiftl 32 20 = 32 * 1024 * 1024.
Proof. reflexivity. Qed.

Section Checkers.

Context {codec : xsrftoken.Codec}.
Variable now : Z.

(** The Default checker on a request that is subject to the check, as one
    decision list over the cookie, the form and the token. *)
Lemma defaultChecker_Check_unfold (dc : defaultChecker) (r : IncomingRequest) :
  ~ statePreserving (Method r) ->
  defaultChecker_Check now dc r =
    match Cookie_of r (dc_cookieIDKey dc) with
    | inr _ => StatusForbidden
    | inl cookie =>
        match bodyForm r with
        | None => StatusBadRequest
        | Some f =>
            let tok := Form_String f (dc_tokenKey dc) "" in
            if bool_decide (Form_Err f <> None) || String.eqb tok ""
            then StatusUnauthorized
            else if xsrftoken.Valid now tok (dc_secretAppKey dc)
                      (Value cookie) (URLPath r)
            then StatusOK
            else StatusForbidden
        end
    end.
Proof.
  intros Hm. unfold defaultChecker_Check, bodyForm.
  rewrite (not_statePreserving_false _ Hm), shift_32_20.
  destruct (Cookie_of r (dc_cookieIDKey dc)) as [cookie|e]; [|reflexivity].
  destruct (PostForm r) as [f|e].
  - cbv zeta. destruct (_ || _); [reflexivity|].
    destruct (xsrftoken.Valid _ _ _ _ _); reflexivity.
  - destruct (MultipartForm_of r (32 * 1024 * 1024)) as [mf|e']; [|reflexivity].
    cbv zeta. destruct (_ || _); [reflexivity|].
    destruct (xsrftoken.Valid _ _ _ _ _); reflexivity.
Qed.

Lemma angularChecker_Check_unfold (ac : angularChecker) (r : IncomingRequest) :
  ~ statePreserving (Method r) ->
  angularChecker_Check ac r =
    match Cookie_of r (ac_tokenCookieName ac) with
    | inr _ => StatusForbidden
    | inl cookie =>
        let tok := Header_Get (Header r) (ac_tokenHeaderName ac) in
        if String.eqb tok "" then StatusUnauthorized
        else if String.eqb tok (Value cookie) then StatusOK
        else StatusUnauthorized
    end.
Proof.
  intros Hm. unfold angularChecker_Check.
  rewrite (not_statePreserving_false _ Hm).
  destruct (Cookie_of r (ac_tokenCookieName ac)) as [cookie|e]; [|reflexivity].
  cbv zeta. destruct (String.eqb _ ""); [reflexivity|].
  destruct (String.eqb _ (Value cookie)); reflexivity.
Qed.

(** C2. On a request whose method is GET, HEAD or OPTIONS, the checker of the
    Default strategy and the checker of the Lightweight strategy both return
    200 OK, whatever the cookies, the forms and the headers of the request
    are. *)
Theorem Check_state_preserving_ok
    (dc : defaultChecker) (ac : angularChecker) (r : IncomingRequest) :
  statePreserving (Method r) ->
  defaultChecker_Check now dc r = StatusOK /\
  angularChecker_Check ac r = StatusOK.
Proof.
  intros Hm. apply isStatePreserving_iff in Hm.
  unfold defaultChecker_Check, angularChecker_Check.
  rewrite Hm. split; reflexivity.
Qed.

(** C1. On a request whose method is not GET, HEAD or OPTIONS, the Default
    checker returns 200 OK if and only if the named session cookie is present
    and the request bears a form whose token field is read without error, is
    not empty and is valid, by the codec, for the secret key, the value of
    the cookie and the path of the request; the Lightweight checker returns
    200 OK if and only if the named cookie is present and the value of the
    configured header is not empty and equal to the value of the cookie. *)
Theorem Check_ok_iff
    (dc : defaultChecker) (ac : angularChecker) (r : IncomingRequest) :
  ~ statePreserving (Method r) ->
  (defaultChecker_Check now dc r = StatusOK <->
   exists cookie f,
     Cookie_of r (dc_cookieIDKey dc) = inl cookie /\
     bodyForm r = Some f /\
     Form_Err f = None /\
     Form_String f (dc_tokenKey dc) "" <> "" /\
     xsrftoken.Valid now (Form_String f (dc_tokenKey dc) "")
       (dc_secretAppKey dc) (Value cookie) (URLPath r) = true) /\
  (angularChecker_Check ac r = StatusOK <->
   exists cookie,
     Cookie_of r (ac_tokenCookieName ac) = inl cookie /\
     Header_Get (Header r) (ac_tokenHeaderName ac) <> "" /\
     Header_Get (Header r) (ac_tokenHeaderName ac) = Value cookie).
Proof.
  intros Hm. split.
  - rewrite (defaultChecker_Check_unfold dc r Hm). split.
    + destruct (Cookie_of r (dc_cookieIDKey dc)) as [cookie|e];
        [|status_discr].
      destruct (bodyForm r) as [f|]; [|status_discr].
      cbv zeta.
      destruct (bool_decide (Form_Err f <> None)) eqn:Herr;
        [status_discr|].
      destruct (String.eqb (Form_String f (dc_tokenKey dc) "") "") eqn:Htok;
        [status_discr|].
      destruct (xsrftoken.Valid _ _ _ _ _) eqn:Hv; [|status_discr].
      intros _. exists cookie, f. repeat split; try assumption.
      * apply bool_decide_eq_false in Herr.
        destruct (Form_Err f); [exfalso; apply Herr; discriminate|reflexivity].
      * apply String.eqb_neq. assumption.
    + intros (cookie & f & -> & -> & Herr & Htok & Hv). cbv zeta.
      rewrite Herr, Hv. apply String.eqb_neq in Htok. rewrite Htok.
      rewrite bool_decide_eq_false_2 by (intros Hn; apply Hn; reflexivity).
      reflexivity.
  - rewrite (angularChecker_Check_unfold ac r Hm). split.
    + destruct (Cookie_of r (ac_tokenCookieName ac)) as [cookie|e];
        [|status_discr].
      cbv zeta.
      destruct (String.eqb (Header_Get _ _) "") eqn:Htok;
        [status_discr|].
      destruct (String.eqb (Header_Get _ _) (Value cookie)) eqn:Heq;
        [|status_discr].
      intros _. exists cookie. repeat split.
      * apply String.eqb_neq. assumption.
      * apply String.eqb_eq. assumption.
    + intros (cookie & -> & Htok & Heq). cbv zeta.
      apply String.eqb_neq in Htok. apply String.eqb_eq in Heq.
      rewrite Htok, Heq. reflexivity.
Qed.

(** C4. On a request whose method is not GET, HEAD or OPTIONS, the Default
    checker decides in a fixed order, and the first condition that fails
    settles the status alone: no session cookie gives 403 Forbidden; a body
    that is neither a URL-encoded form nor a multipart form under the cap of
    32 MiB gives 400 Bad Request; a token field that is missing or empty, or
    an error recorded on the form, gives 401 Unauthorized; a token that the
    codec refuses for the secret key, the cookie value and the request path
    gives 403 Forbidden; and 200 OK is returned otherwise. *)
Theorem defaultChecker_Check_first_failure
    (dc : defaultChecker) (r : IncomingRequest) :
  ~ statePreserving (Method r) ->
  (forall e, Cookie_of r (dc_cookieIDKey dc) = inr e ->
     defaultChecker_Check now dc r = StatusForbidden) /\
  (forall cookie e e',
     Cookie_of r (dc_cookieIDKey dc) = inl cookie ->
     PostForm r = inr e ->
     MultipartForm_of r (32 * 1024 * 1024) = inr e' ->
     defaultChecker_Check now dc r = StatusBadRequest) /\
  (forall cookie f,
     Cookie_of r (dc_cookieIDKey dc) = inl cookie ->
     bodyForm r = Some f ->
     values f !! dc_tokenKey dc = None \/
     Form_String f (dc_tokenKey dc) "" = "" \/
     Form_Err f <> None ->
     defaultChecker_Check now dc r = StatusUnauthorized) /\
  (forall cookie f,
     Cookie_of r (dc_cookieIDKey dc) = inl cookie ->
     bodyForm r = Some f ->
     Form_Err f = None ->
     Form_String f (dc_tokenKey dc) "" <> "" ->
     xsrftoken.Valid now (Form_String f (dc_tokenKey dc) "")
       (dc_secretAppKey dc) (Value cookie) (URLPath r) = false ->
     defaultChecker_Check now dc r = StatusForbidden) /\
  (forall cookie f,
     Cookie_of r (dc_cookieIDKey dc) = inl cookie ->
     bodyForm r = Some f ->
     Form_Err f = None ->
     Form_String f (dc_tokenKey dc) "" <> "" ->
     xsrftoken.Valid now (Form_String f (dc_tokenKey dc) "")
       (dc_secretAppKey dc) (Value cookie) (URLPath r) = true ->
     defaultChecker_Check now dc r = StatusOK).
Proof.
  intros Hm. rewrite (defaultChecker_Check_unfold dc r Hm).
  split; [|split; [|split; [|split]]].
  - intros e ->. reflexivity.
  - intros cookie e e' -> Hp Hmp. unfold bodyForm. rewrite Hp, Hmp. reflexivity.
  - intros cookie f -> -> Hfail. cbv zeta.
    assert (Hc : bool_decide (Form_Err f <> None)
                 || String.eqb (Form_String f (dc_tokenKey dc) "") "" = true).
    { destruct Hfail as [Hnone | [Hempty | Herr]].
      - unfold Form_String. rewrite Hnone. apply orb_true_r.
      - rewrite Hempty. apply orb_true_r.
      - rewrite (bool_decide_eq_true_2 _ Herr). reflexivity. }
    rewrite Hc. reflexivity.
  - intros cookie f -> -> Herr Htok Hv. cbv zeta.
    rewrite Herr, Hv. apply String.eqb_neq in Htok. rewrite Htok.
    rewrite bool_decide_eq_false_2 by (intros Hn; apply Hn; reflexivity).
    reflexivity.
  - intros cookie f -> -> Herr Htok Hv. cbv zeta.
    rewrite Herr, Hv. apply String.eqb_neq in Htok. rewrite Htok.
    rewrite bool_decide_eq_false_2 by (intros Hn; apply Hn; reflexivity).
    reflexivity.
Qed.

End Checkers.

(** ** The generators *)

Section Generators.

Context {codec : xsrftoken.Codec}.
Variable now : Z.

Lemma Read_fails_iff (n : nat) (rd : rand.Reader) :
  snd (fst (rand.Read n rd)) <> None <-> (List.length (rand.entropy rd) < n)%nat.
Proof.
  unfold rand.Read.
  destruct (Nat.leb_spec n (List.length (rand.entropy rd))); simpl; split;
    intros; try lia; congruence.
Qed.

Lemma Read_filled (n : nat) (rd rd' : rand.Reader) (buf : list byte) :
  rand.Read n rd = ((buf, None), rd') ->
  buf = take n (rand.entropy rd) /\ List.length buf = n.
Proof.
  unfold rand.Read.
  destruct (Nat.leb_spec n (List.length (rand.entropy rd))); intros Heq;
    inversion Heq; subst.
  split; [reflexivity|]. rewrite length_take. lia.
Qed.

(** The Default generator, by the two outcomes it depends on. *)
Lemma defaultGenerator_Generate_unfold
    (dg : defaultGenerator) (r : IncomingRequest) (rd : rand.Reader) :
  defaultGenerator_Generate now dg r rd =
    match Cookie_of r (dg_cookieIDKey dg), rand.Read 20 rd with
    | inl cookie, _ =>
        ((ofDefaultData
            {| dd_cookieID := cookie;
               dd_token := xsrftoken.Generate now (dg_secretAppKey dg)
                             (Value cookie) (URLPath r);
               dd_setCookie := false |}, None), rd)
    | inr _, ((_, Some err), rd') =>
        ((nilData, Some ("crypto/rand.Read: " +:+ err)), rd')
    | inr _, ((buf, None), rd') =>
        let cookie :=
          {| Name := dg_cookieIDKey dg; Value := base64.EncodeToString buf;
             sameSite := SameSiteStrictMode; path := ""; maxAge := 0;
             httpOnly := true |} in
        ((ofDefaultData
            {| dd_cookieID := cookie;
               dd_token := xsrftoken.Generate now (dg_secretAppKey dg)
                             (Value cookie) (URLPath r);
               dd_setCookie := true |}, None), rd')
    end.
Proof.
  unfold defaultGenerator_Generate.
  destruct (Cookie_of r (dg_cookieIDKey dg)) as [cookie|e]; [reflexivity|].
  destruct (rand.Read 20 rd) as [[buf [err|]] rd']; reflexivity.
Qed.

Lemma angularGenerator_Generate_unfold
    (ag : angularGenerator) (r : IncomingRequest) (rd : rand.Reader) :
  angularGenerator_Generate ag r rd =
    match Cookie_of r (ag_tokenCookieName ag), rand.Read 20 rd with
    | inl cookie, _ =>
        ((ofAngularData {| ad_tokCookie := cookie; ad_setCookie := false |},
          None), rd)
    | inr _, ((_, Some err), rd') =>
        ((nilData, Some ("crypto/rand.Read: " +:+ err)), rd')
    | inr _, ((tok, None), rd') =>
        ((ofAngularData
            {| ad_tokCookie :=
                 {| Name := ag_tokenCookieName ag;
                    Value := base64.EncodeToString tok;
                    sameSite := SameSiteStrictMode; path := "/";
                    maxAge := 86400; httpOnly := false |};
               ad_setCookie := true |}, None), rd')
    end.
Proof.
  unfold angularGenerator_Generate.
  destruct (Cookie_of r (ag_tokenCookieName ag)) as [cookie|e]; [reflexivity|].
  destruct (rand.Read 20 rd) as [[tok [err|]] rd']; reflexivity.
Qed.

(** C5. When the named cookie is present on the request, the generator of
    either strategy returns, without error and without drawing on the random
    source, a payload whose flag for setting the cookie is false and whose
    cookie is the one read from the request; the injector of the same
    strategy then leaves the writer as it was, setting no cookie. *)
Theorem Generate_keeps_present_cookie
    (dg : defaultGenerator) (ag : angularGenerator)
    (r : IncomingRequest) (rd : rand.Reader) :
  (forall cookie,
     Cookie_of r (dg_cookieIDKey dg) = inl cookie ->
     exists d,
       defaultGenerator_Generate now dg r rd = ((ofDefaultData d, None), rd) /\
       dd_setCookie d = false /\
       dd_cookieID d = cookie /\
       forall i resp w,
         snd (fst (defaultInjector_Inject i resp w (ofDefaultData d))) = w) /\
  (forall cookie,
     Cookie_of r (ag_tokenCookieName ag) = inl cookie ->
     exists d,
       angularGenerator_Generate ag r rd = ((ofAngularData d, None), rd) /\
       ad_setCookie d = false /\
       ad_tokCookie d = cookie /\
       forall i resp w,
         snd (fst (angularInjector_Inject i resp w (ofAngularData d))) = w).
Proof.
  split; intros cookie Hc.
  - rewrite defaultGenerator_Generate_unfold, Hc.
    eexists. split; [reflexivity|]. repeat split.
    intros i resp w. simpl. destruct resp; reflexivity.
  - rewrite angularGenerator_Generate_unfold, Hc.
    eexists. split; [reflexivity|]. repeat split.
Qed.

(** C10. The generator of either strategy returns an error exactly when the
    request lacks the named cookie and the random source fails to fill the
    20 bytes of a new one; the payload it then returns is nil, carrying
    neither a cookie to set nor a token. On a request that carries the
    cookie it returns no error. *)
Theorem Generate_fails_iff
    (dg : defaultGenerator) (ag : angularGenerator)
    (r : IncomingRequest) (rd : rand.Reader) :
  (failure (defaultGenerator_Generate now dg r rd) <> None <->
   (exists e, Cookie_of r (dg_cookieIDKey dg) = inr e) /\ readFails rd) /\
  (failure (defaultGenerator_Generate now dg r rd) <> None ->
   payload (defaultGenerator_Generate now dg r rd) = nilData) /\
  (failure (angularGenerator_Generate ag r rd) <> None <->
   (exists e, Cookie_of r (ag_tokenCookieName ag) = inr e) /\ readFails rd) /\
  (failure (angularGenerator_Generate ag r rd) <> None ->
   payload (angularGenerator_Generate ag r rd) = nilData) /\
  (forall cookie, Cookie_of r (dg_cookieIDKey dg) = inl cookie ->
   failure (defaultGenerator_Generate now dg r rd) = None) /\
  (forall cookie, Cookie_of r (ag_tokenCookieName ag) = inl cookie ->
   failure (angularGenerator_Generate ag r rd) = None).
Proof.
  rewrite defaultGenerator_Generate_unfold, angularGenerator_Generate_unfold.
  unfold readFails, failure, payload.
  destruct (rand.Read 20 rd) as [[buf [err|]] rd']; simpl;
    destruct (Cookie_of r (dg_cookieIDKey dg)) as [c1|e1];
    destruct (Cookie_of r (ag_tokenCookieName ag)) as [c2|e2]; simpl;
    repeat split; try congruence; eauto;
    try (intros [[e He] _]; congruence);
    try (intros [_ He]; congruence).
Qed.

(** C7. When the Lightweight generator runs on a request that lacks the
    named cookie and the random source fills its buffer, the cookie of the
    payload has for value the standard base64 encoding, 28 characters long,
    of the 20 bytes read, and has SameSite=Strict, Path="/", Max-Age=86400
    and HTTP-only off; the flag for setting the cookie is true. *)
Theorem angularGenerator_Generate_mints
    (ag : angularGenerator) (r : IncomingRequest) (rd rd' : rand.Reader)
    (e : error) (tok : list byte) :
  Cookie_of r (ag_tokenCookieName ag) = inr e ->
  rand.Read 20 rd = ((tok, None), rd') ->
  angularGenerator_Generate ag r rd =
    ((ofAngularData
        {| ad_tokCookie :=
             {| Name := ag_tokenCookieName ag;
                Value := base64.EncodeToString tok;
                sameSite := SameSiteStrictMode; path := "/";
                maxAge := 86400; httpOnly := false |};
           ad_setCookie := true |}, None), rd') /\
  List.length tok = 20%nat /\
  String.length (base64.EncodeToString tok) = 28%nat.
Proof.
  intros Hc Hr. rewrite angularGenerator_Generate_unfold, Hc, Hr.
  split; [reflexivity|].
  apply Read_filled in Hr as [_ Hlen]. split; [exact Hlen|].
  rewrite Base64Facts.EncodeToString_length, Hlen. reflexivity.
Qed.

End Generators.

(** ** The injectors *)

Lemma defaultInjector_Inject_mismatch
    (i : defaultInjector) (resp : Response) (w : ResponseWriter)
    (data : GeneratedData) :
  (forall d, data <> ofDefaultData d) ->
  defaultInjector_Inject i resp w data =
    ((Some "invalid data received", w), resp).
Proof.
  intros Hd. destruct data as [|d|d|t]; try reflexivity.
  exfalso. apply (Hd d). reflexivity.
Qed.

Lemma angularInjector_Inject_mismatch
    (i : angularInjector) (resp : Response) (w : ResponseWriter)
    (data : GeneratedData) :
  (forall d, data <> ofAngularData d) ->
  angularInjector_Inject i resp w data =
    ((Some "invalid data received", w), resp).
Proof.
  intros Hd. destruct data as [|d|d|t]; try reflexivity.
  exfalso. apply (Hd d). reflexivity.
Qed.

(** ** The interceptor *)

Lemma WriteError_changes_writer (w : ResponseWriter) (code : StatusCode) :
  snd (WriteError w code) <> w.
Proof.
  unfold WriteError. simpl. intros Heq.
  apply (f_equal (fun x => List.length (written x))) in Heq.
  simpl in Heq. lia.
Qed.

Section Hooks.

Context {G C I : Type}.
Context {checker : Checker C} {generator : Generator G} {injector : Injector I}.
Variable it : Interceptor G C I.

(** C8. [Before] returns what writing the status of the checker as an error
    response returns whenever that status is not 200 OK, and returns the
    not-written result with the writer untouched when the status is 200 OK;
    the writer is left untouched exactly when the checker returns 200 OK. *)
Theorem Before_writes_iff_rejected (w : ResponseWriter) (r : IncomingRequest) :
  (Check (c it) r <> StatusOK ->
   Before it w r = WriteError w (Check (c it) r)) /\
  (Check (c it) r = StatusOK -> Before it w r = (NotWritten, w)) /\
  (Before it w r = (NotWritten, w) <-> Check (c it) r = StatusOK) /\
  (snd (Before it w r) = w <-> Check (c it) r = StatusOK).
Proof.
  unfold Before.
  destruct (Z.eqb_spec (Check (c it) r) StatusOK) as [Heq|Hne]; simpl.
  - repeat split; auto. contradiction.
  - repeat split; auto; try contradiction.
    + intros Hw. exfalso.
      apply (WriteError_changes_writer w (Check (c it) r)).
      rewrite Hw. reflexivity.
    + intros Hw. exfalso.
      apply (WriteError_changes_writer w (Check (c it) r)). exact Hw.
Qed.

(** C6. When the generator returns an error, [Commit] writes 500 Internal
    Server Error on the writer it was given; when the generator succeeds and
    the injector returns an error, [Commit] writes 500 on the writer the
    injector left. The status is all that is written: the error itself is
    dropped. An injector handed a payload that is not of its own strategy
    (the payload of the other strategy, nil, or a value of another type)
    returns such an error and leaves the writer and the response as they
    were. *)
Theorem Commit_failure_writes_500
    (w : ResponseWriter) (r : IncomingRequest) (resp : Response)
    (rd rd1 : rand.Reader) (data : GeneratedData) (gerr : option error) :
  Generate (g it) r rd = ((data, gerr), rd1) ->
  (gerr <> None ->
   Commit it w r resp rd =
     ((WriteError w StatusInternalServerError, resp), rd1)) /\
  (forall ierr w1 resp1,
     gerr = None ->
     Inject (i it) resp w data = ((ierr, w1), resp1) ->
     ierr <> None ->
     Commit it w r resp rd =
       ((WriteError w1 StatusInternalServerError, resp1), rd1)) /\
  (forall di payload,
     (forall d, payload <> ofDefaultData d) ->
     defaultInjector_Inject di resp w payload =
       ((Some "invalid data received", w), resp)) /\
  (forall ai payload,
     (forall d, payload <> ofAngularData d) ->
     angularInjector_Inject ai resp w payload =
       ((Some "invalid data received", w), resp)).
Proof.
  intros Hg. unfold Commit. rewrite Hg.
  split; [|split; [|split]].
  - destruct gerr; [reflexivity|contradiction].
  - intros ierr w1 resp1 -> Hi Hierr. rewrite Hi.
    destruct ierr; [reflexivity|contradiction].
  - intros di payload. apply defaultInjector_Inject_mismatch.
  - intros ai payload. apply angularInjector_Inject_mismatch.
Qed.

End Hooks.

(** C9. The Lightweight strategy has no use for the secret key: the
    interceptor that [Angular] builds holds the empty key, the status its
    checker returns is the same under any two keys an interceptor may be
    given, and that status is the same on any two requests that agree on the
    method, on the presence and value of the named cookie and on the value
    of the named header. *)
Theorem angularChecker_Check_ignores_key :
  (forall cookieName headerName,
     secretAppKey (Angular cookieName headerName) = "") /\
  (forall (key1 key2 : string) (ag : angularGenerator) (ac : angularChecker)
          (ai : angularInjector) (r : IncomingRequest),
     Check (c (New key1 ag ac ai)) r = Check (c (New key2 ag ac ai)) r) /\
  (forall (ac : angularChecker) (r1 r2 : IncomingRequest),
     Method r1 = Method r2 ->
     sum_map Value (fun _ => tt) (Cookie_of r1 (ac_tokenCookieName ac)) =
     sum_map Value (fun _ => tt) (Cookie_of r2 (ac_tokenCookieName ac)) ->
     Header_Get (Header r1) (ac_tokenHeaderName ac) =
     Header_Get (Header r2) (ac_tokenHeaderName ac) ->
     angularChecker_Check ac r1 = angularChecker_Check ac r2).
Proof.
  repeat split.
  intros ac r1 r2 Hm Hc Hh. unfold angularChecker_Check.
  rewrite Hm, Hh.
  destruct (Cookie_of r1 (ac_tokenCookieName ac)) as [c1|e1];
    destruct (Cookie_of r2 (ac_tokenCookieName ac)) as [c2|e2];
    simpl in Hc; try discriminate; [|reflexivity].
  injection Hc as ->. reflexivity.
Qed.

(** ** The theorems at the concrete requests *)

Lemma POST_not_statePreserving : ~ statePreserving "POST".
Proof. intros [Hm|[Hm|Hm]]; discriminate Hm. Defined.

(** A bare GET passes both checkers. *)
Lemma Check_state_preserving_ok_witness :
  statePreserving (Method Examples.getBare) /\
  defaultChecker_Check (codec := Examples.plainCodec) 0 (c (Default "key"))
    Examples.getBare = StatusOK /\
  angularChecker_Check (c (Angular "XSRF-TOKEN" "X-XSRF-TOKEN"))
    Examples.getBare = StatusOK.
Proof.
  assert (Hm : statePreserving (Method Examples.getBare))
    by (left; reflexivity).
  split; [exact Hm|].
  exact (Check_state_preserving_ok (codec := Examples.plainCodec) 0
           (c (Default "key")) (c (Angular "XSRF-TOKEN" "X-XSRF-TOKEN"))
           Examples.getBare Hm).
Defined.

(** A POST with the cookie and its token passes the Default checker; a POST
    whose header echoes the cookie passes the Lightweight one. *)
Lemma Check_ok_iff_witness :
  ~ statePreserving (Method Examples.postValid) /\
  defaultChecker_Check (codec := Examples.plainCodec) 0 (c (Default "key"))
    Examples.postValid = StatusOK /\
  angularChecker_Check (c (Angular "XSRF-TOKEN" "X-XSRF-TOKEN"))
    (Examples.postEcho "abcdef" "abcdef") = StatusOK.
Proof.
  split; [exact POST_not_statePreserving|]. split.
  - apply (proj1 (Check_ok_iff (codec := Examples.plainCodec) 0
                    (c (Default "key")) (c (Angular "XSRF-TOKEN" "X-XSRF-TOKEN"))
                    Examples.postValid POST_not_statePreserving)).
    exists (Examples.sessionCookie "abcdef"),
           (Examples.formWith "xsrf-token" "key:abcdef:/pizza").
    repeat split; try reflexivity. discriminate.
  - apply (proj2 (Check_ok_iff (codec := Examples.plainCodec) 0
                    (c (Default "key")) (c (Angular "XSRF-TOKEN" "X-XSRF-TOKEN"))
                    (Examples.postEcho "abcdef" "abcdef")
                    POST_not_statePreserving)).
    exists (NewCookie "XSRF-TOKEN" "abcdef").
    repeat split; try reflexivity. discriminate.
Defined.

(** One POST for each outcome of the Default checker. *)
Lemma defaultChecker_Check_first_failure_witness :
  ~ statePreserving "POST" /\
  defaultChecker_Check (codec := Examples.plainCodec) 0 (c (Default "key"))
    Examples.postNoCookie = StatusForbidden /\
  defaultChecker_Check (codec := Examples.plainCodec) 0 (c (Default "key"))
    Examples.postNoBody = StatusBadRequest /\
  defaultChecker_Check (codec := Examples.plainCodec) 0 (c (Default "key"))
    Examples.postNoToken = StatusUnauthorized /\
  defaultChecker_Check (codec := Examples.plainCodec) 0 (c (Default "key"))
    Examples.postOtherPath = StatusForbidden /\
  defaultChecker_Check (codec := Examples.plainCodec) 0 (c (Default "key"))
    Examples.postMultipart = StatusOK.
Proof.
  split; [exact POST_not_statePreserving|].
  pose (thm := fun r (Hm : ~ statePreserving (Method r)) =>
    defaultChecker_Check_first_failure (codec := Examples.plainCodec) 0
      (c (Default "key")) r Hm).
  split; [|split; [|split; [|split]]].
  - apply (proj1 (thm Examples.postNoCookie POST_not_statePreserving) ErrNoCookie). reflexivity.
  - apply (proj1 (proj2 (thm Examples.postNoBody POST_not_statePreserving))
             (Examples.sessionCookie "abcdef")
             "not a URL-encoded form" "not a multipart form"); reflexivity.
  - apply (proj1 (proj2 (proj2 (thm Examples.postNoToken POST_not_statePreserving)))
             (Examples.sessionCookie "abcdef")
             (Examples.formWith "topping" "ham")); try reflexivity.
    left. reflexivity.
  - apply (proj1 (proj2 (proj2 (proj2 (thm Examples.postOtherPath POST_not_statePreserving))))
             (Examples.sessionCookie "abcdef")
             (Examples.formWith "xsrf-token" "key:abcdef:/spaghetti"));
      try reflexivity. discriminate.
  - apply (proj2 (proj2 (proj2 (proj2 (thm Examples.postMultipart POST_not_statePreserving))))
             (Examples.sessionCookie "abcdef")
             (Examples.formWith "xsrf-token" "key:abcdef:/pizza"));
      try reflexivity. discriminate.
Defined.

(** Both generators on a request that carries their cookie. *)
Lemma Generate_keeps_present_cookie_witness :
  Cookie_of Examples.postValid "xsrf-cookie"
    = inl (Examples.sessionCookie "abcdef") /\
  (exists d,
     defaultGenerator_Generate (codec := Examples.plainCodec) 0
       (g (Default "key")) Examples.postValid Examples.dryReader
       = ((ofDefaultData d, None), Examples.dryReader) /\
     dd_setCookie d = false /\
     dd_cookieID d = Examples.sessionCookie "abcdef" /\
     forall i resp w,
       snd (fst (defaultInjector_Inject i resp w (ofDefaultData d))) = w).
Proof.
  split; [reflexivity|].
  apply (proj1 (Generate_keeps_present_cookie (codec := Examples.plainCodec) 0
                  (g (Default "key")) (g (Angular "XSRF-TOKEN" "X-XSRF-TOKEN"))
                  Examples.postValid Examples.dryReader)).
  reflexivity.
Defined.

(** The Lightweight generator on a request without its cookie, with 20 bytes
    to read. *)
Lemma angularGenerator_Generate_mints_witness :
  Cookie_of Examples.getBare "XSRF-TOKEN" = inr ErrNoCookie /\
  rand.Read 20 Examples.fullReader
    = ((Examples.twentyBytes, None), Examples.dryReader) /\
  angularGenerator_Generate (g (Angular "XSRF-TOKEN" "X-XSRF-TOKEN"))
    Examples.getBare Examples.fullReader =
    ((ofAngularData
        {| ad_tokCookie :=
             {| Name := "XSRF-TOKEN";
                Value := "AAECAwQFBgcICQoLDA0ODxAREhM=";
                sameSite := SameSiteStrictMode; path := "/";
                maxAge := 86400; httpOnly := false |};
           ad_setCookie := true |}, None), Examples.dryReader).
Proof.
  split; [reflexivity|]. split; [reflexivity|].
  apply (angularGenerator_Generate_mints
           (g (Angular "XSRF-TOKEN" "X-XSRF-TOKEN")) Examples.getBare
           Examples.fullReader Examples.dryReader ErrNoCookie
           Examples.twentyBytes); reflexivity.
Defined.

(** Both generators on a request without their cookie, with nothing to
    read. *)
Lemma Generate_fails_iff_witness :
  defaultGenerator_Generate (codec := Examples.plainCodec) 0
    (g (Default "key")) Examples.getBare Examples.dryReader
    = ((nilData, Some "crypto/rand.Read: unexpected EOF"), Examples.dryReader) /\
  failure (angularGenerator_Generate (g (Angular "XSRF-TOKEN" "X-XSRF-TOKEN"))
             Examples.getBare Examples.dryReader) <> None /\
  failure (defaultGenerator_Generate (codec := Examples.plainCodec) 0
             (g (Default "key")) Examples.postValid Examples.dryReader) = None.
Proof.
  pose (thm := fun r =>
    Generate_fails_iff (codec := Examples.plainCodec) 0
      (g (Default "key")) (g (Angular "XSRF-TOKEN" "X-XSRF-TOKEN"))
      r Examples.dryReader).
  split; [reflexivity|]. split.
  - apply (proj1 (proj2 (proj2 (thm Examples.getBare)))).
    split; [exists ErrNoCookie; reflexivity|].
    unfold readFails. simpl. discriminate.
  - apply (proj1 (proj2 (proj2 (proj2 (proj2 (thm Examples.postValid)))))
             (Examples.sessionCookie "abcdef")).
    reflexivity.
Defined.

(** [Before] on a POST without cookie, and on a POST that passes. *)
Lemma Before_writes_iff_rejected_witness :
  Before (Default "key") (checker := defaultChecker_Check (codec := Examples.plainCodec) 0)
    Examples.blankWriter Examples.postNoCookie
    = WriteError Examples.blankWriter StatusForbidden /\
  Before (Default "key") (checker := defaultChecker_Check (codec := Examples.plainCodec) 0)
    Examples.blankWriter Examples.postValid
    = (NotWritten, Examples.blankWriter).
Proof.
  split.
  - apply (proj1 (Before_writes_iff_rejected
                    (checker := defaultChecker_Check (codec := Examples.plainCodec) 0)
                    (Default "key") Examples.blankWriter Examples.postNoCookie)).
    discriminate.
  - apply (proj1 (proj2 (Before_writes_iff_rejected
                    (checker := defaultChecker_Check (codec := Examples.plainCodec) 0)
                    (Default "key") Examples.blankWriter Examples.postValid))).
    reflexivity.
Defined.

(** [Commit] with the Lightweight generator and the Default injector: the
    payload is not the injector's, and 500 is written. [Commit] of the
    Default strategy with nothing to read: the generator fails, and 500 is
    written. *)
Lemma Commit_failure_writes_500_witness :
  Commit (generator := angularGenerator_Generate)
    (injector := defaultInjector_Inject)
    (New "key" (g (Angular "XSRF-TOKEN" "X-XSRF-TOKEN")) (c (Default "key"))
       mkDefaultInjector)
    Examples.blankWriter Examples.getBare ofOther Examples.fullReader
    = ((WriteError Examples.blankWriter StatusInternalServerError, ofOther),
       Examples.dryReader) /\
  Commit (generator := defaultGenerator_Generate (codec := Examples.plainCodec) 0)
    (injector := defaultInjector_Inject) (Default "key")
    Examples.blankWriter Examples.getBare ofOther Examples.dryReader
    = ((WriteError Examples.blankWriter StatusInternalServerError, ofOther),
       Examples.dryReader).
Proof.
  split.
  - eapply (proj1 (proj2 (Commit_failure_writes_500
              (generator := angularGenerator_Generate)
              (injector := defaultInjector_Inject)
              (New "key" (g (Angular "XSRF-TOKEN" "X-XSRF-TOKEN"))
                 (c (Default "key")) mkDefaultInjector)
              Examples.blankWriter Examples.getBare ofOther
              Examples.fullReader Examples.dryReader _ None eq_refl))
             (Some "invalid data received"));
      [reflexivity|reflexivity|discriminate].
  - eapply (proj1 (Commit_failure_writes_500
              (generator := defaultGenerator_Generate (codec := Examples.plainCodec) 0)
              (injector := defaultInjector_Inject)
              (Default "key")
              Examples.blankWriter Examples.getBare ofOther
              Examples.dryReader Examples.dryReader
              nilData (Some "crypto/rand.Read: unexpected EOF") eq_refl)).
    discriminate.
Defined.

(** Two requests that differ in path, in form and in the SameSite mode of
    the cookie get one status from the Lightweight checker. *)
Lemma angularChecker_Check_ignores_key_witness :
  angularChecker_Check (c (Angular "XSRF-TOKEN" "X-XSRF-TOKEN"))
    (Examples.postEcho "abcdef" "abcdef") =
  angularChecker_Check (c (Angular "XSRF-TOKEN" "X-XSRF-TOKEN"))
    {| method := "POST"; URLPath := "/spaghetti";
       cookies := [SetSameSite (NewCookie "XSRF-TOKEN" "abcdef") SameSiteStrictMode];
       Header := {[ "X-XSRF-TOKEN" := ["abcdef"] ]};
       postForm := inl (Examples.formWith "topping" "ham");
       multipartForm := Examples.noMultipart |}.
Proof.
  apply (proj2 (proj2 angularChecker_Check_ignores_key)); reflexivity.
Defined.

End XsrfFacts.

(** ** The token codec of the specification *)

Module TokenFacts.

Import TokenCodec.

Lemma xorByte_92_involutive (b : byte) : xorByte 92 (xorByte 92 b) = b.
Proof. destruct b; reflexivity. Qed.

Lemma map_involutive_inj (f : byte -> byte) (l1 l2 : list byte) :
  (forall b, f (f b) = b) -> map f l1 = map f l2 -> l1 = l2.
Proof.
  intros Hf. revert l2.
  induction l1 as [|a l1 IH]; intros [|b l2] Heq; try discriminate.
  - reflexivity.
  - simpl in Heq. injection Heq as Hab Hl.
    rewrite <- (Hf a), Hab, Hf. f_equal. apply IH. exact Hl.
Qed.

Lemma list_byte_of_string_inj (s1 s2 : string) :
  list_byte_of_string s1 = list_byte_of_string s2 -> s1 = s2.
Proof.
  intros Heq. apply (f_equal string_of_list_byte) in Heq.
  rewrite !string_of_list_byte_of_string in Heq. exact Heq.
Qed.

Lemma string_of_list_byte_inj (l1 l2 : list byte) :
  string_of_list_byte l1 = string_of_list_byte l2 -> l1 = l2.
Proof.
  intros Heq. apply (f_equal list_byte_of_string) in Heq.
  rewrite !list_byte_of_string_of_list_byte in Heq. exact Heq.
Qed.

Lemma length_list_byte_of_string (s : string) :
  List.length (list_byte_of_string s) = String.length s.
Proof.
  unfold list_byte_of_string. rewrite length_map.
  induction s as [|a s IH]; simpl; [reflexivity|]. rewrite IH. reflexivity.
Qed.

(** *** The framing of the message *)

(** No colon among the bytes of a string. *)
Definition colonFree (s : string) : Prop :=
  ~ In x3a (list_byte_of_string s).

Lemma colonFree_String (a : ascii) (s : string) :
  a <> ":"%char -> colonFree s -> colonFree (String a s).
Proof.
  intros Ha Hs [Hin|Hin]; [|exact (Hs Hin)].
  apply Ha. apply (f_equal ascii_of_byte) in Hin.
  rewrite ascii_of_byte_of_ascii in Hin. exact Hin.
Qed.

Lemma pretty_N_char_not_colon (x : N) : pretty_N_char x <> ":"%char.
Proof. unfold pretty_N_char. repeat case_match; discriminate. Qed.

Lemma pretty_N_go_colonFree (x : N) (s : string) :
  colonFree s -> colonFree (pretty_N_go x s).
Proof.
  revert s. induction (N.lt_wf_0 x) as [x _ IH]. intros s Hs.
  destruct (N.eq_dec x 0%N) as [->|Hx].
  - rewrite pretty_N_go_0. exact Hs.
  - rewrite pretty_N_go_step by lia. apply IH.
    + apply N.div_lt; lia.
    + apply colonFree_String; [apply pretty_N_char_not_colon|exact Hs].
Qed.

Lemma pretty_nat_colonFree (n : nat) : colonFree (pretty n).
Proof.
  unfold pretty, pretty_nat, pretty, pretty_N.
  destruct (decide (N.of_nat n = 0%N)).
  - intros [Hin|[]]. discriminate Hin.
  - apply pretty_N_go_colonFree. intros [].
Qed.

(** Two lists cut at their first colon. *)
Lemma app_colon_inj (a a' x x' : list byte) :
  ~ In x3a a -> ~ In x3a a' ->
  (a ++ x3a :: x = a' ++ x3a :: x')%list -> a = a' /\ x = x'.
Proof.
  revert a'. induction a as [|b a IH]; intros [|b' a'] Ha Ha' Heq;
    simpl in Heq.
  - injection Heq as ->. split; reflexivity.
  - injection Heq as <- _. exfalso. apply Ha'. left. reflexivity.
  - injection Heq as -> _. exfalso. apply Ha. left. reflexivity.
  - injection Heq as -> Heq.
    destruct (IH a') as [-> ->]; try exact Heq.
    + intros Hin. apply Ha. right. exact Hin.
    + intros Hin. apply Ha'. right. exact Hin.
    + split; reflexivity.
Qed.

(** A framed string is read back from the front of what follows it. *)
Lemma frame_inj (s s' : string) (r r' : list byte) :
  (frame s ++ r = frame s' ++ r')%list -> s = s' /\ r = r'.
Proof.
  unfold frame. rewrite <- !app_assoc. simpl. intros Heq.
  apply app_colon_inj in Heq as [Hlen Heq];
    try apply pretty_nat_colonFree.
  apply list_byte_of_string_inj, (inj pretty) in Hlen.
  apply app_inj_1 in Heq as [Hs Hr];
    [|rewrite !length_list_byte_of_string; exact Hlen].
  split; [apply list_byte_of_string_inj; exact Hs|exact Hr].
Qed.

Section Binding.

Variable H : list byte -> list byte.
Variable B : nat.
Variable window : Z.

(** The message tells its session identifier, its path and its time bucket
    apart. *)
Lemma message_inj (id1 id2 p1 p2 : string) (t1 t2 : Z) :
  message window id1 p1 t1 = message window id2 p2 t2 <->
  id1 = id2 /\ p1 = p2 /\ bucket window t1 = bucket window t2.
Proof.
  unfold message. split.
  - intros Heq. apply frame_inj in Heq as [Hid Heq].
    apply frame_inj in Heq as [Hp Heq].
    apply list_byte_of_string_inj, (inj pretty) in Heq. auto.
  - intros (-> & -> & ->). reflexivity.
Qed.

Lemma Validate_true (t : Z) (token secret id path : string) :
  Validate H B window t token secret id path = true <->
  token = Generate H B window t secret id path.
Proof. unfold Validate. apply String.eqb_eq. Qed.

(** Acceptance is the equality of the two outer digests. *)
Lemma Validate_Generate (t now : Z) (k k' id id' p p' : string) :
  Validate H B window now (Generate H B window t k id p) k' id' p' = true <->
  H (outerInput H B (list_byte_of_string k) (message window id p t)) =
  H (outerInput H B (list_byte_of_string k') (message window id' p' now)).
Proof.
  rewrite Validate_true. unfold Generate, hmac, outerInput, innerInput.
  cbv zeta. split.
  - apply string_of_list_byte_inj.
  - intros ->. reflexivity.
Qed.

(** Two inputs have one digest when they are equal or collide. *)
Lemma digest_eq_iff (x y : list byte) :
  H x = H y <-> x = y \/ collides H x y.
Proof.
  unfold collides. split.
  - intros Heq. destruct (List.list_eq_dec byte_eq_dec x y); auto.
  - intros [->|[_ Heq]]; [reflexivity|exact Heq].
Qed.

(** *** Block keys *)

Lemma blockKey_effectiveKey (key : list byte) :
  blockKey H B key =
  (effectiveKey H B key
     ++ replicate (B - List.length (effectiveKey H B key)) x00)%list.
Proof. reflexivity. Qed.

Lemma blockKey_short (key : list byte) :
  (List.length key <= B)%nat ->
  blockKey H B key = (key ++ replicate (B - List.length key) x00)%list.
Proof.
  intros Hlen. unfold blockKey.
  destruct (Nat.ltb_spec B (List.length key)); [lia|reflexivity].
Qed.

(** A zero byte appended to a key that leaves room in the block is lost in
    the filling. *)
Lemma blockKey_zero_extended (key : list byte) :
  (S (List.length key) <= B)%nat ->
  blockKey H B (key ++ [x00]) = blockKey H B key.
Proof.
  intros Hlen.
  rewrite !blockKey_short by (rewrite ?length_app; simpl; lia).
  rewrite length_app. simpl.
  replace (B - List.length key)%nat with (S (B - (List.length key + 1)))%nat by lia.
  simpl. rewrite <- app_assoc. reflexivity.
Qed.

(** Two byte strings no longer than [n] fill up with zero bytes to the same
    [n] bytes exactly when one is the other followed by zero bytes only. *)
Lemma fill_eq_iff (n : nat) (a b : list byte) :
  (List.length a <= n)%nat -> (List.length b <= n)%nat ->
  (a ++ replicate (n - List.length a) x00
   = b ++ replicate (n - List.length b) x00)%list <->
  sameUpToZeros a b.
Proof.
  intros Ha Hb.
  assert (Hfwd : forall (u v : list byte),
    (List.length u <= List.length v)%nat -> (List.length v <= n)%nat ->
    (u ++ replicate (n - List.length u) x00
     = v ++ replicate (n - List.length v) x00)%list ->
    v = (u ++ replicate (List.length v - List.length u) x00)%list).
  { intros u v Huv Hv Heq.
    replace (n - List.length u)%nat
      with ((List.length v - List.length u) + (n - List.length v))%nat
      in Heq by lia.
    rewrite replicate_add, app_assoc in Heq.
    apply app_inv_tail in Heq. symmetry. exact Heq. }
  assert (Hbwd : forall (u v : list byte) (m : nat),
    (List.length v <= n)%nat -> v = (u ++ replicate m x00)%list ->
    (u ++ replicate (n - List.length u) x00
     = v ++ replicate (n - List.length v) x00)%list).
  { intros u v m Hv ->. rewrite length_app, length_replicate in *.
    rewrite <- app_assoc, <- replicate_add. do 2 f_equal. lia. }
  split.
  - intros Heq. destruct (Nat.le_ge_cases (List.length a) (List.length b)).
    + exists (List.length b - List.length a)%nat. right.
      apply Hfwd; assumption.
    + exists (List.length a - List.length b)%nat. left.
      apply Hfwd; [assumption|assumption|symmetry; exact Heq].
  - intros [m [Heq|Heq]].
    + symmetry. eapply Hbwd; eassumption.
    + eapply Hbwd; eassumption.
Qed.

(** Two lists of one length that differ by zero bytes at the end are
    equal. *)
Lemma sameUpToZeros_same_length (a b : list byte) :
  List.length a = List.length b -> sameUpToZeros a b -> a = b.
Proof.
  intros Hlen [m [Heq|Heq]]; apply (f_equal (@List.length byte)) in Heq as Hl;
    rewrite length_app, length_replicate in Hl;
    assert (m = 0%nat) as -> by lia; simpl in Heq;
    rewrite app_nil_r in Heq; congruence.
Qed.

Section FixedDigest.

(** The digests of [H] have [L] bytes, no more than a block. *)
Variable L : nat.
Hypothesis digest_length : forall x, List.length (H x) = L.
Hypothesis digest_fits : (L <= B)%nat.

Lemma effectiveKey_fits (key : list byte) :
  (List.length (effectiveKey H B key) <= B)%nat.
Proof.
  unfold effectiveKey. destruct (Nat.ltb_spec B (List.length key)).
  - rewrite digest_length. exact digest_fits.
  - assumption.
Qed.

Lemma blockKey_length (key : list byte) :
  List.length (blockKey H B key) = B.
Proof.
  rewrite blockKey_effectiveKey, length_app, length_replicate.
  pose proof (effectiveKey_fits key). lia.
Qed.

Lemma blockKey_eq_iff (k k' : list byte) :
  blockKey H B k = blockKey H B k' <->
  sameUpToZeros (effectiveKey H B k) (effectiveKey H B k').
Proof.
  rewrite !blockKey_effectiveKey.
  apply fill_eq_iff; apply effectiveKey_fits.
Qed.

(** The two outer inputs are equal exactly when the block keys are and the
    inner digests are. *)
Lemma outerInput_eq_iff (k k' m m' : list byte) :
  outerInput H B k m = outerInput H B k' m' <->
  blockKey H B k = blockKey H B k' /\
  H (innerInput H B k m) = H (innerInput H B k' m').
Proof.
  unfold outerInput. split.
  - intros Heq. apply app_inj_1 in Heq as [Hk Hh];
      [|rewrite !length_map, !blockKey_length; reflexivity].
    split; [|exact Hh].
    eapply map_involutive_inj; [apply xorByte_92_involutive|exact Hk].
  - intros [-> ->]. reflexivity.
Qed.

End FixedDigest.

Lemma innerInput_eq_iff (k k' m m' : list byte) :
  blockKey H B k = blockKey H B k' ->
  (innerInput H B k m = innerInput H B k' m' <-> m = m').
Proof.
  unfold innerInput. intros ->. split.
  - apply app_inv_head.
  - intros ->. reflexivity.
Qed.

(** C3, as amended. A token generated for a triple (secret, sessionID, path)
    and checked in the time bucket of its generation is accepted for the
    same triple. With the secret kept, it is accepted for another session
    identifier or another path, or in another time bucket, exactly when the
    hash function under the HMAC has one digest for the two different inner
    inputs, or for the two different outer inputs, of the two computations.
    With any secret, for a hash function whose digests have one length, no
    longer than a block, it is accepted exactly when the outer inputs
    collide so, or the two secrets, each hashed first if longer than a
    block, are one another followed by zero bytes only and, besides, the
    session identifier, the path and the time bucket are the same or the
    inner inputs collide; two secrets longer than a block are such a pair
    exactly when they have one digest. *)
Theorem Validate_accepts_iff
    (L : nat) (t now : Z)
    (secret secret' sessionID sessionID' path path' : string) :
  let k := list_byte_of_string secret in
  let k' := list_byte_of_string secret' in
  let m := message window sessionID path t in
  let m' := message window sessionID' path' now in
  let token := Generate H B window t secret sessionID path in
  (bucket window now = bucket window t ->
   Validate H B window now token secret sessionID path = true) /\
  (~ (sessionID' = sessionID /\ path' = path /\
      bucket window now = bucket window t) ->
   (Validate H B window now token secret sessionID' path' = true <->
    collides H (innerInput H B k m) (innerInput H B k m') \/
    collides H (outerInput H B k m) (outerInput H B k m'))) /\
  ((forall x, List.length (H x) = L) -> (L <= B)%nat ->
   (Validate H B window now token secret' sessionID' path' = true <->
    collides H (outerInput H B k m) (outerInput H B k' m') \/
    (sameUpToZeros (effectiveKey H B k) (effectiveKey H B k') /\
     ((sessionID' = sessionID /\ path' = path /\
       bucket window now = bucket window t) \/
      collides H (innerInput H B k m) (innerInput H B k' m')))) /\
   ((B < List.length k)%nat -> (B < List.length k')%nat ->
    (sameUpToZeros (effectiveKey H B k) (effectiveKey H B k') <->
     H k = H k'))).
Proof.
  intros k k' m m' token. subst token.
  split; [|split].
  - intros Hb. apply Validate_true. unfold Generate, message.
    rewrite Hb. reflexivity.
  - intros Hchanged. rewrite Validate_Generate. fold k m m'.
    assert (Hm : m <> m').
    { intros Heq. apply Hchanged. apply message_inj in Heq.
      destruct Heq as (-> & -> & ->). auto. }
    assert (Hin : innerInput H B k m <> innerInput H B k m').
    { intros Heq. apply innerInput_eq_iff in Heq; [contradiction|reflexivity]. }
    rewrite digest_eq_iff. split.
    + intros [Heq|Hcol]; [left|right; exact Hcol].
      unfold outerInput in Heq. apply app_inv_head in Heq.
      split; assumption.
    + intros [[_ Heq]|Hcol]; [left|right; exact Hcol].
      unfold outerInput. rewrite Heq. reflexivity.
  - intros Hlen Hfit. split.
    + rewrite Validate_Generate. fold k k' m m'.
      rewrite digest_eq_iff, (outerInput_eq_iff L Hlen Hfit).
      rewrite (blockKey_eq_iff L Hlen Hfit).
      split.
      * intros [[Hk Hh]|Hcol]; [right|left; exact Hcol].
        split; [exact Hk|].
        apply digest_eq_iff in Hh as [Heq|Hcol]; [left|right; exact Hcol].
        apply innerInput_eq_iff in Heq;
          [|apply (blockKey_eq_iff L Hlen Hfit); exact Hk].
        apply message_inj in Heq. destruct Heq as (-> & -> & ->). auto.
      * intros [Hcol|[Hk Hin]]; [right; exact Hcol|left].
        split; [exact Hk|]. apply digest_eq_iff.
        destruct Hin as [(-> & -> & Hb)|Hcol]; [left|right; exact Hcol].
        apply innerInput_eq_iff;
          [apply (blockKey_eq_iff L Hlen Hfit); exact Hk|].
        apply message_inj. auto.
    + intros Hk Hk'. unfold effectiveKey.
      apply Nat.ltb_lt in Hk, Hk'. rewrite Hk, Hk'. split.
      * apply sameUpToZeros_same_length. rewrite !Hlen. reflexivity.
      * intros ->. exists 0%nat. left. simpl. rewrite app_nil_r. reflexivity.
Qed.

End Binding.

(** *** Where binding fails *)

(** Whatever the hash function, for blocks of two bytes or more, the token
    generated for a secret is the token for that secret followed by a zero
    byte. *)
Lemma Generate_zero_extended_secret
    (H : list byte -> list byte) (B : nat) (window t : Z)
    (sessionID path : string) :
  (2 <= B)%nat ->
  Generate H B window t (String "k" (String zero "")) sessionID path
  = Generate H B window t "k" sessionID path.
Proof.
  intros HB. unfold Generate, hmac. cbv zeta.
  change (list_byte_of_string (String "k" (String zero "")))
    with (list_byte_of_string "k" ++ [x00])%list.
  rewrite blockKey_zero_extended by (simpl; lia). reflexivity.
Qed.

#[local] Instance byte_eq_dec_instance : EqDecision byte := byte_eq_dec.

Lemma byte_of_to_nat (b : byte) :
  default x00 (Byte.of_nat (Byte.to_nat b)) = b.
Proof. rewrite Byte.of_to_nat. reflexivity. Qed.

Lemma byte_to_nat_lt (b : byte) : (Byte.to_nat b < 256)%nat.
Proof. pose proof (Byte.to_nat_bounded b). lia. Qed.

Lemma byte_to_of_nat (n : nat) :
  (n < 256)%nat -> Byte.to_nat (default x00 (Byte.of_nat n)) = n.
Proof.
  intros Hn. destruct (Byte.of_nat n) as [b|] eqn:Hb.
  - apply Byte.to_of_nat in Hb. exact Hb.
  - apply Byte.of_nat_None_iff in Hb. lia.
Qed.

(** The 256 bytes. *)
Definition byte_finite : Finite byte :=
  enc_finite Byte.to_nat (fun n => default x00 (Byte.of_nat n)) 256
    byte_of_to_nat byte_to_nat_lt byte_to_of_nat.

Lemma byte_card : @card byte _ byte_finite = 256%nat.
Proof. vm_compute. reflexivity. Qed.

(** There are more paths than digests: whatever the hash function with
    digests of [L] bytes, two different paths have one token. *)
Lemma Generate_two_paths_one_token
    (H : list byte -> list byte) (L B : nat) (window t : Z)
    (secret sessionID : string) :
  (forall x, List.length (H x) = L) ->
  exists path path' : string,
    path <> path' /\
    Generate H B window t secret sessionID path
    = Generate H B window t secret sessionID path'.
Proof.
  intros Hlen.
  pose (digest (i : fin (S (256 ^ L))) :=
    exist (fun l : list byte => List.length l = L)
      (hmac H B (list_byte_of_string secret)
         (message window sessionID (pretty (fin_to_nat i)) t))
      (Hlen _)).
  destruct (@finite_pigeonhole _ _ _ _ _ (@list_finite _ _ byte_finite L) digest)
    as (i1 & i2 & Hne & Heq).
  - rewrite (@list_card _ _ byte_finite), byte_card, fin_card. lia.
  - exists (pretty (fin_to_nat i1)), (pretty (fin_to_nat i2)). split.
    + intros Hp. apply (inj pretty), (inj fin_to_nat) in Hp. contradiction.
    + unfold Generate. apply (f_equal proj1_sig) in Heq. simpl in Heq.
      rewrite Heq. reflexivity.
Qed.

(** C3, as stated, fails twice over. Whatever the hash function, for blocks
    of two bytes or more, the token generated for the secret "k" is accepted
    for the secret that adds a zero byte to it, the session identifier and
    the path unchanged. And no hash function whose digests have one length
    makes the codec reject, for every two different paths, the token of one
    for the other. *)
Lemma Validate_binding_fails :
  (~ exists (H : list byte -> list byte) (B : nat) (window : Z),
       (2 <= B)%nat /\
       Validate H B window 0 (Generate H B window 0 "k" "s" "/")
         (String "k" (String zero "")) "s" "/" = false) /\
  (~ exists (H : list byte -> list byte) (L B : nat) (window : Z),
       (forall x, List.length (H x) = L) /\
       forall path path' : string, path <> path' ->
         Validate H B window 0 (Generate H B window 0 "k" "s" path)
           "k" "s" path' = false).
Proof.
  split.
  - intros (H & B & window & HB & Hrej).
    assert (Hacc : Validate H B window 0 (Generate H B window 0 "k" "s" "/")
                     (String "k" (String zero "")) "s" "/" = true).
    { apply Validate_true. symmetry.
      apply Generate_zero_extended_secret. exact HB. }
    congruence.
  - intros (H & L & B & window & Hlen & Hrej).
    destruct (Generate_two_paths_one_token H L B window 0 "k" "s" Hlen)
      as (path & path' & Hne & Heq).
    specialize (Hrej path path' Hne).
    assert (Hacc : Validate H B window 0 (Generate H B window 0 "k" "s" path)
                     "k" "s" path' = true)
      by (apply Validate_true; exact Heq).
    congruence.
Qed.

(** *** The theorem at a checksum *)

Lemma checksumHash_length (x : list byte) :
  List.length (checksumHash x) = 4%nat.
Proof. reflexivity. Defined.

(** A concrete pair of inputs does not collide when its digests differ. *)
Ltac no_collision Hc :=
  destruct Hc as [_ Hc]; vm_compute in Hc; discriminate Hc.

(** Refusal, from the two cases of acceptance with the secret kept. *)
Ltac kept_secret_refused Hsame :=
  apply not_true_is_false; intros Hacc;
  apply Hsame in Hacc;
  [destruct Hacc as [Hc|Hc]; no_collision Hc
  |intros (Hid & Hp & Hb); first [discriminate Hid|discriminate Hp
                                 |vm_compute in Hb; discriminate Hb]].

(** With the checksum as hash function, blocks of 64 bytes and a window of a
    day: the token is accepted later the same day for its triple, and
    refused for another session identifier, for another path, on the next
    day, for another secret and for another secret longer than a block; it
    is accepted for the secret followed by a zero byte. *)
Lemma Validate_accepts_iff_witness :
  (forall x, List.length (checksumHash x) = 4%nat) /\
  (4 <= 64)%nat /\
  Validate checksumHash 64 86400000 2000
    (Generate checksumHash 64 86400000 1000 "key" "abcdef" "/pizza")
    "key" "abcdef" "/pizza" = true /\
  Validate checksumHash 64 86400000 2000
    (Generate checksumHash 64 86400000 1000 "key" "abcdef" "/pizza")
    "key" "abcdeg" "/pizza" = false /\
  Validate checksumHash 64 86400000 2000
    (Generate checksumHash 64 86400000 1000 "key" "abcdef" "/pizza")
    "key" "abcdef" "/pizzb" = false /\
  Validate checksumHash 64 86400000 86402000
    (Generate checksumHash 64 86400000 1000 "key" "abcdef" "/pizza")
    "key" "abcdef" "/pizza" = false /\
  Validate checksumHash 64 86400000 2000
    (Generate checksumHash 64 86400000 1000 "key" "abcdef" "/pizza")
    "kez" "abcdef" "/pizza" = false /\
  Validate checksumHash 64 86400000 2000
    (Generate checksumHash 64 86400000 1000 "k" "abcdef" "/pizza")
    (String "k" (String zero "")) "abcdef" "/pizza" = true /\
  Validate checksumHash 64 86400000 2000
    (Generate checksumHash 64 86400000 1000 longSecret "abcdef" "/pizza")
    otherLongSecret "abcdef" "/pizza" = false.
Proof.
  split; [exact checksumHash_length|]. split; [lia|].
  split; [|split; [|split; [|split; [|split; [|split]]]]].
  - apply (proj1 (Validate_accepts_iff checksumHash 64 86400000 4
                    1000 2000 "key" "key" "abcdef" "abcdef" "/pizza" "/pizza")).
    reflexivity.
  - pose proof (proj1 (proj2 (Validate_accepts_iff checksumHash 64 86400000 4
                  1000 2000 "key" "key" "abcdef" "abcdeg" "/pizza" "/pizza")))
      as Hsame.
    kept_secret_refused Hsame.
  - pose proof (proj1 (proj2 (Validate_accepts_iff checksumHash 64 86400000 4
                  1000 2000 "key" "key" "abcdef" "abcdef" "/pizza" "/pizzb")))
      as Hsame.
    kept_secret_refused Hsame.
  - pose proof (proj1 (proj2 (Validate_accepts_iff checksumHash 64 86400000 4
                  1000 86402000 "key" "key" "abcdef" "abcdef" "/pizza" "/pizza")))
      as Hsame.
    kept_secret_refused Hsame.
  - destruct (proj2 (proj2 (Validate_accepts_iff checksumHash 64 86400000 4
                  1000 2000 "key" "kez" "abcdef" "abcdef" "/pizza" "/pizza"))
                checksumHash_length ltac:(lia)) as [Hany _].
    apply not_true_is_false. intros Hacc.
    apply Hany in Hacc. destruct Hacc as [Hc|[Hk _]]; [no_collision Hc|].
    destruct Hk as [n [Hk|Hk]]; vm_compute in Hk; discriminate Hk.
  - destruct (proj2 (proj2 (Validate_accepts_iff checksumHash 64 86400000 4
                  1000 2000 "k" (String "k" (String zero ""))
                  "abcdef" "abcdef" "/pizza" "/pizza"))
                checksumHash_length ltac:(lia)) as [Hany _].
    apply Hany. right. split.
    + exists 1%nat. right. reflexivity.
    + left. repeat split.
  - destruct (proj2 (proj2 (Validate_accepts_iff checksumHash 64 86400000 4
                  1000 2000 longSecret otherLongSecret
                  "abcdef" "abcdef" "/pizza" "/pizza"))
                checksumHash_length ltac:(lia)) as [Hany Hlong].
    apply not_true_is_false. intros Hacc.
    apply Hany in Hacc. destruct Hacc as [Hc|[Hk _]]; [no_collision Hc|].
    apply Hlong in Hk; [|vm_compute; lia..].
    vm_compute in Hk. discriminate Hk.
Defined.

End TokenFacts.

(** ** Further properties of the package *)

Module XsrfLaws.

Import safehttp xsrf Views.

(** *** The injectors *)

(** X1. The Default injector, given a payload of its own and a template-backed
    response, and no failure to set the cookie, returns no error and binds
    the name "XSRFToken" to a function that returns the token of the
    payload, replacing what was bound there; every other name of the map
    keeps its binding. *)
Theorem defaultInjector_Inject_binds_token
    (di : defaultInjector) (tr : TemplateResponse) (w : ResponseWriter)
    (d : defaultData) :
  (dd_setCookie d = true -> fst (SetCookie w (dd_cookieID d)) = None) ->
  exists w' resp',
    defaultInjector_Inject di (ofTemplate tr) w (ofDefaultData d)
      = ((None, w'), resp') /\
    bound resp' "XSRFToken" = Some (dd_token d) /\
    forall name, name <> "XSRFToken" ->
      bound resp' name = bound (ofTemplate tr) name.
Proof.
  intros Hset. unfold defaultInjector_Inject.
  destruct (dd_setCookie d).
  - specialize (Hset eq_refl).
    destruct (SetCookie w (dd_cookieID d)) as [err w'] eqn:Hsc.
    simpl in Hset. subst err.
    eexists _, _. split; [reflexivity|]. simpl. split.
    + rewrite lookup_insert_eq. reflexivity.
    + intros name Hne. rewrite lookup_insert_ne by congruence. reflexivity.
  - eexists _, _. split; [reflexivity|]. simpl. split.
    + rewrite lookup_insert_eq. reflexivity.
    + intros name Hne. rewrite lookup_insert_ne by congruence. reflexivity.
Qed.

(** X2. When the payload asks for its cookie to be set and setting it fails,
    the injector of either strategy returns the error of [SetCookie] itself
    and hands back the response as it was given: the Default injector binds
    no token in the template once the cookie has failed. *)
Theorem Inject_returns_cookie_error
    (resp : Response) (w w' : ResponseWriter) (e : error) :
  (forall (di : defaultInjector) (d : defaultData),
     dd_setCookie d = true ->
     SetCookie w (dd_cookieID d) = (Some e, w') ->
     defaultInjector_Inject di resp w (ofDefaultData d)
       = ((Some e, w'), resp)) /\
  (forall (ai : angularInjector) (d : angularData),
     ad_setCookie d = true ->
     SetCookie w (ad_tokCookie d) = (Some e, w') ->
     angularInjector_Inject ai resp w (ofAngularData d)
       = ((Some e, w'), resp)).
Proof.
  split; intros inj d Hflag Hsc.
  - unfold defaultInjector_Inject. rewrite Hflag, Hsc. reflexivity.
  - unfold angularInjector_Inject. rewrite Hflag, Hsc. reflexivity.
Qed.

(** X3. The Lightweight injector never changes the response, whatever the
    payload and the writer; the Default injector changes a response only by
    binding "XSRFToken" to the token of a payload of its own after the
    cookie, if any, was set, so a response that is not template-backed comes
    back as it was. In either strategy the writer comes back as it was or as
    one call of [SetCookie] with the cookie of the payload left it. *)
Theorem Inject_frame
    (resp : Response) (w : ResponseWriter) (data : GeneratedData) :
  (forall ai : angularInjector,
     snd (angularInjector_Inject ai resp w data) = resp) /\
  (forall di : defaultInjector,
     snd (defaultInjector_Inject di resp w data) = resp \/
     exists d, data = ofDefaultData d /\
       fst (fst (defaultInjector_Inject di resp w data)) = None /\
       snd (defaultInjector_Inject di resp w data)
         = bind resp "XSRFToken" (dd_token d)) /\
  (forall di : defaultInjector,
     snd (defaultInjector_Inject di ofOther w data) = ofOther) /\
  (forall di : defaultInjector,
     snd (fst (defaultInjector_Inject di resp w data)) = w \/
     exists d, data = ofDefaultData d /\ dd_setCookie d = true /\
       snd (fst (defaultInjector_Inject di resp w data))
         = snd (SetCookie w (dd_cookieID d))) /\
  (forall ai : angularInjector,
     snd (fst (angularInjector_Inject ai resp w data)) = w \/
     exists d, data = ofAngularData d /\ ad_setCookie d = true /\
       snd (fst (angularInjector_Inject ai resp w data))
         = snd (SetCookie w (ad_tokCookie d))).
Proof.
  split; [|split; [|split; [|split]]].
  - intros ai. unfold angularInjector_Inject.
    destruct data as [|d|d|t]; try reflexivity.
    destruct (ad_setCookie d); [|reflexivity].
    destruct (SetCookie w (ad_tokCookie d)) as [[err|] w']; reflexivity.
  - intros di. unfold defaultInjector_Inject.
    destruct data as [|d|d|t]; try (left; reflexivity).
    destruct (dd_setCookie d).
    + destruct (SetCookie w (dd_cookieID d)) as [[err|] w'];
        [left; reflexivity|].
      right. exists d. destruct resp; repeat split.
    + right. exists d. destruct resp; repeat split.
  - intros di. unfold defaultInjector_Inject.
    destruct data as [|d|d|t]; try reflexivity.
    destruct (dd_setCookie d); [|reflexivity].
    destruct (SetCookie w (dd_cookieID d)) as [[err|] w']; reflexivity.
  - intros di. unfold defaultInjector_Inject.
    destruct data as [|d|d|t]; try (left; reflexivity).
    destruct (dd_setCookie d) eqn:Hflag.
    + right. exists d. split; [reflexivity|]. split; [exact Hflag|].
      destruct (SetCookie w (dd_cookieID d)) as [[err|] w']; [reflexivity|].
      destruct resp; reflexivity.
    + left. destruct resp; reflexivity.
  - intros ai. unfold angularInjector_Inject.
    destruct data as [|d|d|t]; try (left; reflexivity).
    destruct (ad_setCookie d) eqn:Hflag.
    + right. exists d. split; [reflexivity|]. split; [exact Hflag|].
      destruct (SetCookie w (ad_tokCookie d)) as [[err|] w']; reflexivity.
    + left. reflexivity.
Qed.

(** *** The checkers *)

Section CheckerLaws.

Context {codec : xsrftoken.Codec}.
Variable now : Z.

(** The Default checker over what it reads of the request. *)
Lemma defaultChecker_Check_views (dc : defaultChecker) (r : IncomingRequest) :
  defaultChecker_Check now dc r =
    if isStatePreserving (Method r) then StatusOK else
    match cookieView (dc_cookieIDKey dc) r with
    | inr _ => StatusForbidden
    | inl value =>
        match formView (dc_tokenKey dc) r with
        | None => StatusBadRequest
        | Some (tok, err) =>
            if bool_decide (err <> None) || String.eqb tok ""
            then StatusUnauthorized
            else if xsrftoken.Valid now tok (dc_secretAppKey dc) value
                      (URLPath r)
            then StatusOK
            else StatusForbidden
        end
    end.
Proof.
  unfold defaultChecker_Check, cookieView, formView, bodyForm.
  rewrite XsrfFacts.shift_32_20.
  destruct (isStatePreserving (Method r)); [reflexivity|].
  destruct (Cookie_of r (dc_cookieIDKey dc)) as [cookie|e]; [|reflexivity].
  simpl. destruct (PostForm r) as [f|e].
  - simpl. unfold Form_Err. destruct (_ || _); [reflexivity|].
    destruct (xsrftoken.Valid _ _ _ _ _); reflexivity.
  - destruct (MultipartForm_of r (32 * 1024 * 1024)) as [mf|e']; [|reflexivity].
    simpl. unfold Form_Err. destruct (_ || _); [reflexivity|].
    destruct (xsrftoken.Valid _ _ _ _ _); reflexivity.
Qed.

(** X4. On a request whose method is not GET, HEAD or OPTIONS, the
    Lightweight checker returns 403 Forbidden when the named cookie is
    missing, whatever the header holds; with the cookie present it returns
    401 Unauthorized when the named header is missing or empty, even if the
    value of the cookie is empty as well, and 401 when the header differs
    from the value of the cookie. *)
Theorem angularChecker_Check_rejections
    (ac : angularChecker) (r : IncomingRequest) :
  ~ statePreserving (Method r) ->
  (forall e, Cookie_of r (ac_tokenCookieName ac) = inr e ->
     angularChecker_Check ac r = StatusForbidden) /\
  (forall cookie, Cookie_of r (ac_tokenCookieName ac) = inl cookie ->
     Header r !! ac_tokenHeaderName ac = None \/
     Header_Get (Header r) (ac_tokenHeaderName ac) = "" ->
     angularChecker_Check ac r = StatusUnauthorized) /\
  (forall cookie, Cookie_of r (ac_tokenCookieName ac) = inl cookie ->
     Header_Get (Header r) (ac_tokenHeaderName ac) <> Value cookie ->
     angularChecker_Check ac r = StatusUnauthorized).
Proof.
  intros Hm. rewrite (XsrfFacts.angularChecker_Check_unfold ac r Hm).
  split; [|split].
  - intros e ->. reflexivity.
  - intros cookie -> Hempty. cbv zeta.
    assert (Hget : Header_Get (Header r) (ac_tokenHeaderName ac) = "").
    { destruct Hempty as [Hnone|Hget]; [|exact Hget].
      unfold Header_Get. rewrite Hnone. reflexivity. }
    rewrite Hget. reflexivity.
  - intros cookie -> Hne. cbv zeta.
    destruct (String.eqb _ ""); [reflexivity|].
    apply String.eqb_neq in Hne. rewrite Hne. reflexivity.
Qed.

(** X5. The Default checker returns no status but 200, 400, 401 and 403, and
    the Lightweight checker no status but 200, 401 and 403: neither ever
    answers with a server error, and the Lightweight checker never with 400
    Bad Request, as it reads no body. *)
Theorem Check_status_range
    (dc : defaultChecker) (ac : angularChecker) (r : IncomingRequest) :
  (defaultChecker_Check now dc r = StatusOK \/
   defaultChecker_Check now dc r = StatusBadRequest \/
   defaultChecker_Check now dc r = StatusUnauthorized \/
   defaultChecker_Check now dc r = StatusForbidden) /\
  (angularChecker_Check ac r = StatusOK \/
   angularChecker_Check ac r = StatusUnauthorized \/
   angularChecker_Check ac r = StatusForbidden).
Proof.
  split.
  - rewrite defaultChecker_Check_views.
    destruct (isStatePreserving (Method r)); [tauto|].
    destruct (cookieView _ r); [|tauto].
    destruct (formView _ r) as [[tok err]|]; [|tauto].
    destruct (_ || _); [tauto|].
    destruct (xsrftoken.Valid _ _ _ _ _); tauto.
  - unfold angularChecker_Check.
    destruct (isStatePreserving (Method r)); [tauto|].
    destruct (Cookie_of r _); [|tauto].
    destruct (_ || _); tauto.
Qed.

(** X6. The Default checker reads the multipart form only when the body is
    not a URL-encoded form, and then only under the cap of 32 << 20 bytes:
    the status is the same for any other multipart parser when the
    URL-encoded form parses, and for any multipart parser that returns the
    same at that cap. *)
Theorem defaultChecker_Check_multipart_fallback
    (dc : defaultChecker) (r : IncomingRequest)
    (mf : Z -> MultipartForm + error) :
  (forall f, PostForm r = inl f ->
     defaultChecker_Check now dc (withMultipart r mf)
       = defaultChecker_Check now dc r) /\
  (mf 33554432 = multipartForm r 33554432 ->
     defaultChecker_Check now dc (withMultipart r mf)
       = defaultChecker_Check now dc r).
Proof.
  unfold defaultChecker_Check, withMultipart, PostForm, MultipartForm_of,
    Cookie_of, Method. simpl.
  split.
  - intros f ->. reflexivity.
  - change (Z.shiftl 32 20) with 33554432. intros ->. reflexivity.
Qed.

(** X7. The status of the Default checker is settled by the method, the
    presence and value of the named cookie, the path, and the token field
    and recorded error of the form the request bears: two requests that
    agree on these get the same status, whatever their headers, their other
    cookies, the other attributes of the named cookie and the other fields of
    their forms. *)
Theorem defaultChecker_Check_reads_only
    (dc : defaultChecker) (r1 r2 : IncomingRequest) :
  Method r1 = Method r2 ->
  cookieView (dc_cookieIDKey dc) r1 = cookieView (dc_cookieIDKey dc) r2 ->
  URLPath r1 = URLPath r2 ->
  formView (dc_tokenKey dc) r1 = formView (dc_tokenKey dc) r2 ->
  defaultChecker_Check now dc r1 = defaultChecker_Check now dc r2.
Proof.
  intros Hm Hc Hp Hf. rewrite !defaultChecker_Check_views.
  rewrite Hm, Hc, Hp, Hf. reflexivity.
Qed.

End CheckerLaws.

(** *** The generators *)

Lemma Cookie_of_Name (r : IncomingRequest) (name : string) (cookie : Cookie) :
  Cookie_of r name = inl cookie -> Name cookie = name.
Proof.
  unfold Cookie_of.
  destruct (List.find _ (cookies r)) as [c0|] eqn:Hfind; [|discriminate].
  intros Heq. injection Heq as <-.
  apply List.find_some in Hfind as [_ Hname].
  apply String.eqb_eq. exact Hname.
Qed.

Section GeneratorLaws.

Context {codec : xsrftoken.Codec}.
Variable now : Z.

(** A payload the Default generator returns without error. *)
Lemma defaultGenerator_Generate_ok
    (dg : defaultGenerator) (r : IncomingRequest) (rd rd' : rand.Reader)
    (data : GeneratedData) :
  defaultGenerator_Generate now dg r rd = ((data, None), rd') ->
  exists d,
    data = ofDefaultData d /\
    Name (dd_cookieID d) = dg_cookieIDKey dg /\
    dd_token d = xsrftoken.Generate now (dg_secretAppKey dg)
                   (Value (dd_cookieID d)) (URLPath r) /\
    (dd_setCookie d = true <->
     exists e, Cookie_of r (dg_cookieIDKey dg) = inr e) /\
    (dd_setCookie d = false -> Cookie_of r (dg_cookieIDKey dg) = inl (dd_cookieID d)).
Proof.
  rewrite XsrfFacts.defaultGenerator_Generate_unfold.
  destruct (Cookie_of r (dg_cookieIDKey dg)) as [cookie|e] eqn:Hc.
  - intros Heq. injection Heq as <- <-. eexists. split; [reflexivity|].
    simpl. split; [exact (Cookie_of_Name _ _ _ Hc)|].
    split; [reflexivity|]. split; [|reflexivity].
    split; [discriminate|]. intros [e He]. discriminate.
  - destruct (rand.Read 20 rd) as [[buf [err|]] rd1]; [discriminate|].
    cbv zeta. intros Heq. injection Heq as <- <-.
    eexists. split; [reflexivity|]. simpl.
    repeat split; eauto. discriminate.
Qed.

Lemma angularGenerator_Generate_ok
    (ag : angularGenerator) (r : IncomingRequest) (rd rd' : rand.Reader)
    (data : GeneratedData) :
  angularGenerator_Generate ag r rd = ((data, None), rd') ->
  exists d,
    data = ofAngularData d /\
    Name (ad_tokCookie d) = ag_tokenCookieName ag /\
    (ad_setCookie d = true <->
     exists e, Cookie_of r (ag_tokenCookieName ag) = inr e) /\
    (ad_setCookie d = false ->
     Cookie_of r (ag_tokenCookieName ag) = inl (ad_tokCookie d)) /\
    (ad_setCookie d = true ->
     String.length (Value (ad_tokCookie d)) = 28%nat).
Proof.
  rewrite XsrfFacts.angularGenerator_Generate_unfold.
  destruct (Cookie_of r (ag_tokenCookieName ag)) as [cookie|e] eqn:Hc.
  - intros Heq. injection Heq as <- <-. eexists. split; [reflexivity|].
    simpl. split; [exact (Cookie_of_Name _ _ _ Hc)|].
    repeat split; try discriminate. intros [e He]. discriminate.
  - destruct (rand.Read 20 rd) as [[buf [err|]] rd1] eqn:Hr; [discriminate|].
    intros Heq. injection Heq as <- <-.
    eexists. split; [reflexivity|]. simpl.
    repeat split; eauto; try discriminate.
    intros _. apply XsrfFacts.Read_filled in Hr as [_ Hlen].
    rewrite Base64Facts.EncodeToString_length, Hlen. reflexivity.
Qed.

(** X8. Whatever payload the generator of either strategy returns without an
    error, its cookie bears the configured name, its flag for setting the
    cookie is true exactly when the request lacked that cookie, and, in the
    Default strategy, its token is the one the codec generates for the
    secret key of the generator, the value of that same cookie and the path
    of the request. *)
Theorem Generate_payload_invariant
    (dg : defaultGenerator) (ag : angularGenerator)
    (r : IncomingRequest) (rd : rand.Reader) :
  (failure (defaultGenerator_Generate now dg r rd) = None ->
   exists d,
     payload (defaultGenerator_Generate now dg r rd) = ofDefaultData d /\
     Name (dd_cookieID d) = dg_cookieIDKey dg /\
     dd_token d = xsrftoken.Generate now (dg_secretAppKey dg)
                    (Value (dd_cookieID d)) (URLPath r) /\
     (dd_setCookie d = true <->
      exists e, Cookie_of r (dg_cookieIDKey dg) = inr e)) /\
  (failure (angularGenerator_Generate ag r rd) = None ->
   exists d,
     payload (angularGenerator_Generate ag r rd) = ofAngularData d /\
     Name (ad_tokCookie d) = ag_tokenCookieName ag /\
     (ad_setCookie d = true <->
      exists e, Cookie_of r (ag_tokenCookieName ag) = inr e)).
Proof.
  unfold failure, payload. split.
  - destruct (defaultGenerator_Generate now dg r rd) as [[data err] rd'] eqn:Hg.
    simpl. intros ->.
    destruct (defaultGenerator_Generate_ok _ _ _ _ _ Hg)
      as (d & -> & Hn & Ht & Hf & _).
    exists d. auto.
  - destruct (angularGenerator_Generate ag r rd) as [[data err] rd'] eqn:Hg.
    simpl. intros ->.
    destruct (angularGenerator_Generate_ok _ _ _ _ _ Hg)
      as (d & -> & Hn & Hf & _).
    exists d. auto.
Qed.

(** X9. When the Default generator runs on a request that lacks the named
    cookie and the random source fills its buffer, it takes exactly 20 bytes
    from the source; the cookie of the payload is a new cookie of the
    configured name whose value is the base64 encoding, 28 characters long,
    of those bytes, with SameSite set to Strict and nothing else set, so that
    it stays HTTP-only, unlike the cookie of the Lightweight strategy; the
    token is generated for that value; the flag for setting is true. *)
Theorem defaultGenerator_Generate_mints
    (dg : defaultGenerator) (r : IncomingRequest) (rd rd' : rand.Reader)
    (e : error) (buf : list byte) :
  Cookie_of r (dg_cookieIDKey dg) = inr e ->
  rand.Read 20 rd = ((buf, None), rd') ->
  defaultGenerator_Generate now dg r rd =
    ((ofDefaultData
        {| dd_cookieID :=
             SetSameSite
               (NewCookie (dg_cookieIDKey dg) (base64.EncodeToString buf))
               SameSiteStrictMode;
           dd_token :=
             xsrftoken.Generate now (dg_secretAppKey dg)
               (base64.EncodeToString buf) (URLPath r);
           dd_setCookie := true |}, None), rd') /\
  buf = take 20 (rand.entropy rd) /\
  rand.entropy rd' = drop 20 (rand.entropy rd) /\
  String.length (base64.EncodeToString buf) = 28%nat /\
  httpOnly (SetSameSite
              (NewCookie (dg_cookieIDKey dg) (base64.EncodeToString buf))
              SameSiteStrictMode)
    = httpOnly (NewCookie (dg_cookieIDKey dg) (base64.EncodeToString buf)).
Proof.
  intros Hc Hr. rewrite XsrfFacts.defaultGenerator_Generate_unfold, Hc, Hr.
  split; [reflexivity|].
  destruct (XsrfFacts.Read_filled _ _ _ _ Hr) as [Hbuf Hlen].
  split; [exact Hbuf|]. split.
  - unfold rand.Read in Hr.
    destruct (Nat.leb_spec 20 (List.length (rand.entropy rd)));
      inversion Hr; reflexivity.
  - split; [|reflexivity].
    rewrite Base64Facts.EncodeToString_length, Hlen. reflexivity.
Qed.

End GeneratorLaws.

(** *** [Commit], and [Commit] followed by [Before] *)

Section CommitLaws.

Context {G C I : Type}.
Context {generator : Generator G} {injector : Injector I}.
Variable it : Interceptor G C I.

(** X10. When the generator returns no error, [Commit] hands the payload to
    the injector, on the response and the writer it was given; it returns
    the writer and the response as the injector left them, with no status
    written, exactly when the injector returns no error either. *)
Theorem Commit_succeeds_iff
    (w w1 : ResponseWriter) (r : IncomingRequest) (resp resp1 : Response)
    (rd rd1 : rand.Reader) (data : GeneratedData) (ierr : option error) :
  Generate (g it) r rd = ((data, None), rd1) ->
  Inject (i it) resp w data = ((ierr, w1), resp1) ->
  (Commit it w r resp rd = (((mkResult, w1), resp1), rd1) <-> ierr = None).
Proof.
  intros Hg Hi. unfold Commit. rewrite Hg, Hi.
  destruct ierr as [e|]; split; try reflexivity; try discriminate.
  intros Heq. exfalso.
  apply (XsrfFacts.WriteError_changes_writer w1 StatusInternalServerError).
  simpl in *. congruence.
Qed.

End CommitLaws.

Section RoundTrips.

Context {codec : xsrftoken.Codec}.
Variable now : Z.

(** X11. On a request that carries the cookie of the strategy, [Commit]
    cannot fail, whatever the state of the writer and of the random source:
    the interceptor that [Default] builds returns the writer untouched and
    binds "XSRFToken", in a template-backed response, to the token for its
    key, the value of the cookie and the path; the interceptor that [Angular]
    builds returns both the writer and the response untouched. Neither reads
    the random source. *)
Theorem Commit_with_cookie
    (w : ResponseWriter) (r : IncomingRequest) (resp : Response)
    (rd : rand.Reader) :
  (forall key cookie,
     Cookie_of r "xsrf-cookie" = inl cookie ->
     Commit (generator := defaultGenerator_Generate now)
       (injector := defaultInjector_Inject) (Default key) w r resp rd
     = (((mkResult, w),
         bind resp "XSRFToken"
           (xsrftoken.Generate now key (Value cookie) (URLPath r))), rd)) /\
  (forall cookieName headerName cookie,
     Cookie_of r cookieName = inl cookie ->
     Commit (generator := angularGenerator_Generate)
       (injector := angularInjector_Inject) (Angular cookieName headerName)
       w r resp rd
     = (((mkResult, w), resp), rd)).
Proof.
  split.
  - intros key cookie Hc. unfold Commit, Generate, Inject.
    rewrite XsrfFacts.defaultGenerator_Generate_unfold. simpl.
    rewrite Hc. simpl. destruct resp; reflexivity.
  - intros cn hn cookie Hc. unfold Commit, Generate, Inject.
    rewrite XsrfFacts.angularGenerator_Generate_unfold. simpl.
    rewrite Hc. reflexivity.
Qed.

(** X12. On a request without the cookie "xsrf-cookie", with 20 random bytes
    read, [Commit] of the interceptor that [Default] builds calls
    [SetCookie] once, with the new cookie. If that succeeds, the writer is
    the one [SetCookie] left, no status is written, and "XSRFToken" is bound
    to the token for the key, the value of the new cookie and the path. If
    it fails, 500 is written and the response comes back with no token
    bound. *)
Theorem Commit_Default_first_request
    (key : string) (w w' : ResponseWriter) (r : IncomingRequest)
    (resp : Response) (rd rd' : rand.Reader) (e : error) (buf : list byte)
    (serr : option error) :
  Cookie_of r "xsrf-cookie" = inr e ->
  rand.Read 20 rd = ((buf, None), rd') ->
  SetCookie w
    (SetSameSite (NewCookie "xsrf-cookie" (base64.EncodeToString buf))
       SameSiteStrictMode) = (serr, w') ->
  Commit (generator := defaultGenerator_Generate now)
    (injector := defaultInjector_Inject) (Default key) w r resp rd
  = match serr with
    | None =>
        (((mkResult, w'),
          bind resp "XSRFToken"
            (xsrftoken.Generate now key (base64.EncodeToString buf)
               (URLPath r))), rd')
    | Some _ => ((WriteError w' StatusInternalServerError, resp), rd')
    end.
Proof.
  intros Hc Hr Hs. unfold Commit, Generate, Inject.
  rewrite XsrfFacts.defaultGenerator_Generate_unfold. simpl.
  rewrite Hc, Hr. cbv zeta. unfold defaultInjector_Inject.
  cbn [dd_setCookie dd_cookieID dd_token].
  unfold SetSameSite, NewCookie in Hs. simpl in Hs. rewrite Hs.
  destruct serr; [reflexivity|]. destruct resp; reflexivity.
Qed.

(** X13. The generator and the checker that [Default] builds agree. Take a
    codec that accepts, at the instant of the check, the tokens it generated
    at the instant of the commit. If the generator returns a payload whose
    token is not empty, then a later request for the same path that carries
    a cookie "xsrf-cookie" with the value of the cookie of the payload and a
    form, read without error, whose field "xsrf-token" is that token, gets
    200 OK from the checker, whatever its method. *)
Theorem Default_Generate_then_Check
    (later : Z) (key : string) (r r' : IncomingRequest)
    (rd rd' : rand.Reader) (d : defaultData) (cookie' : Cookie) (f : Form) :
  (forall k id p,
     xsrftoken.Valid later (xsrftoken.Generate now k id p) k id p = true) ->
  defaultGenerator_Generate now (g (Default key)) r rd
    = ((ofDefaultData d, None), rd') ->
  dd_token d <> "" ->
  Cookie_of r' "xsrf-cookie" = inl cookie' ->
  Value cookie' = Value (dd_cookieID d) ->
  URLPath r' = URLPath r ->
  bodyForm r' = Some f ->
  Form_Err f = None ->
  Form_String f "xsrf-token" "" = dd_token d ->
  defaultChecker_Check later (c (Default key)) r' = StatusOK.
Proof.
  intros Hcodec Hg Htok Hc Hv Hp Hf Herr Hfield.
  destruct (defaultGenerator_Generate_ok now _ _ _ _ _ Hg)
    as (d0 & Hd & _ & Ht & _).
  injection Hd as <-. simpl in Ht.
  rewrite defaultChecker_Check_views.
  destruct (isStatePreserving (Method r')); [reflexivity|].
  unfold cookieView, formView. simpl. rewrite Hc, Hf. simpl.
  rewrite Herr, Hfield, Hv, Hp.
  apply String.eqb_neq in Htok. rewrite Htok.
  rewrite bool_decide_eq_false_2 by (intros Hn; apply Hn; reflexivity).
  simpl. rewrite Ht, Hcodec. reflexivity.
Qed.

(** X14. The generator and the checker that [Angular] builds agree. When the
    generator mints a cookie, a later request that carries a cookie of that
    name with the minted value and repeats the value in the configured
    header gets 200 OK from the checker: a minted value is never empty. A
    cookie whose value is empty is refused with 401 Unauthorized on a
    request that is subject to the check, though the header repeats it. *)
Theorem Angular_Generate_then_Check
    (cookieName headerName : string) (r r' : IncomingRequest)
    (rd rd' : rand.Reader) (d : angularData) (cookie' : Cookie) :
  angularGenerator_Generate (g (Angular cookieName headerName)) r rd
    = ((ofAngularData d, None), rd') ->
  Cookie_of r' cookieName = inl cookie' ->
  Header_Get (Header r') headerName = Value cookie' ->
  (ad_setCookie d = true -> Value cookie' = Value (ad_tokCookie d) ->
   angularChecker_Check (c (Angular cookieName headerName)) r' = StatusOK) /\
  (Value cookie' = "" -> ~ statePreserving (Method r') ->
   angularChecker_Check (c (Angular cookieName headerName)) r'
     = StatusUnauthorized).
Proof.
  intros Hg Hc Hh. split.
  - intros Hflag Hv.
    destruct (angularGenerator_Generate_ok _ _ _ _ _ Hg)
      as (d0 & Hd & _ & _ & _ & Hlen).
    injection Hd as <-. specialize (Hlen Hflag).
    unfold angularChecker_Check.
    destruct (isStatePreserving (Method r')); [reflexivity|].
    simpl. rewrite Hc, Hh, String.eqb_refl.
    assert (Hne : Value cookie' <> "").
    { rewrite Hv. intros Hempty. rewrite Hempty in Hlen. discriminate. }
    apply String.eqb_neq in Hne. rewrite Hne. reflexivity.
  - intros Hempty Hm.
    rewrite (XsrfFacts.angularChecker_Check_unfold _ _ Hm). simpl.
    rewrite Hc, Hh, Hempty. reflexivity.
Qed.

End RoundTrips.

(** *** The properties at concrete requests *)

Lemma defaultInjector_Inject_binds_token_witness :
  (dd_setCookie Sessions.mintedPayload = true ->
   fst (SetCookie Examples.blankWriter (dd_cookieID Sessions.mintedPayload))
     = None) /\
  exists w' resp',
    defaultInjector_Inject mkDefaultInjector (ofTemplate Sessions.page)
      Examples.blankWriter (ofDefaultData Sessions.mintedPayload)
      = ((None, w'), resp') /\
    bound resp' "XSRFToken" = Some Sessions.mintedToken /\
    bound resp' "Title" = Some "Menu".
Proof.
  split; [reflexivity|].
  destruct (defaultInjector_Inject_binds_token mkDefaultInjector
              Sessions.page Examples.blankWriter Sessions.mintedPayload
              (fun _ => eq_refl))
    as (w' & resp' & Heq & Hb & Hframe).
  exists w', resp'. split; [exact Heq|]. split; [exact Hb|].
  rewrite Hframe by discriminate. reflexivity.
Defined.

Lemma Inject_returns_cookie_error_witness :
  SetCookie Examples.claimedWriter Sessions.mintedCookie
    = (Some "The header Set-Cookie is claimed", Examples.claimedWriter) /\
  defaultInjector_Inject mkDefaultInjector (ofTemplate Sessions.page)
    Examples.claimedWriter (ofDefaultData Sessions.mintedPayload)
    = ((Some "The header Set-Cookie is claimed", Examples.claimedWriter),
       ofTemplate Sessions.page).
Proof.
  split; [reflexivity|].
  apply (proj1 (Inject_returns_cookie_error (ofTemplate Sessions.page)
                  Examples.claimedWriter Examples.claimedWriter
                  "The header Set-Cookie is claimed"));
    reflexivity.
Defined.

Lemma angularChecker_Check_rejections_witness :
  ~ statePreserving "POST" /\
  angularChecker_Check (c (Angular "XSRF-TOKEN" "X-XSRF-TOKEN"))
    Examples.postNoCookie = StatusForbidden /\
  angularChecker_Check (c (Angular "XSRF-TOKEN" "X-XSRF-TOKEN"))
    (Examples.postEcho "" "") = StatusUnauthorized /\
  angularChecker_Check (c (Angular "XSRF-TOKEN" "X-XSRF-TOKEN"))
    (Examples.postEcho "abcdef" "abcdeg") = StatusUnauthorized.
Proof.
  split; [exact XsrfFacts.POST_not_statePreserving|].
  pose (thm := fun r (Hm : ~ statePreserving (Method r)) =>
    angularChecker_Check_rejections
      (c (Angular "XSRF-TOKEN" "X-XSRF-TOKEN")) r Hm).
  split; [|split].
  - apply (proj1 (thm Examples.postNoCookie XsrfFacts.POST_not_statePreserving)
             ErrNoCookie). reflexivity.
  - apply (proj1 (proj2 (thm (Examples.postEcho "" "")
                           XsrfFacts.POST_not_statePreserving))
             (NewCookie "XSRF-TOKEN" "")); [reflexivity|].
    right. reflexivity.
  - apply (proj2 (proj2 (thm (Examples.postEcho "abcdef" "abcdeg")
                           XsrfFacts.POST_not_statePreserving))
             (NewCookie "XSRF-TOKEN" "abcdef")); [reflexivity|].
    discriminate.
Defined.

Lemma defaultChecker_Check_multipart_fallback_witness :
  PostForm Sessions.followUp
    = inl {| values := {[ "xsrf-token" := (Sessions.mintedToken, []);
                          "topping" := ("ham", []) ]};
             formErr := None |} /\
  defaultChecker_Check (codec := Examples.plainCodec) 0 (c (Default "key"))
    (withMultipart Sessions.followUp (multipartForm Examples.postMultipart))
  = defaultChecker_Check (codec := Examples.plainCodec) 0 (c (Default "key"))
      Sessions.followUp.
Proof.
  split; [reflexivity|].
  eapply (proj1 (defaultChecker_Check_multipart_fallback
                   (codec := Examples.plainCodec) 0 (c (Default "key"))
                   Sessions.followUp (multipartForm Examples.postMultipart))).
  reflexivity.
Defined.

Lemma defaultChecker_Check_reads_only_witness :
  Method Sessions.followUp = Method Examples.postValid /\
  defaultChecker_Check (codec := Examples.plainCodec) 0 (c (Default "secret"))
    Sessions.followUp
  = defaultChecker_Check (codec := Examples.plainCodec) 0 (c (Default "secret"))
      {| method := "POST"; URLPath := "/pizza";
         cookies := [Sessions.mintedCookie]; Header := ∅;
         postForm := Examples.noForm;
         multipartForm := fun _ =>
           inl {| multipartFields :=
                    Examples.formWith "xsrf-token" Sessions.mintedToken |} |}.
Proof.
  split; [reflexivity|].
  apply (defaultChecker_Check_reads_only (codec := Examples.plainCodec) 0
           (c (Default "secret"))); reflexivity.
Defined.

Lemma Generate_payload_invariant_witness :
  failure (defaultGenerator_Generate (codec := Examples.plainCodec) 0
             (g (Default "key")) Examples.getBare Examples.fullReader) = None /\
  exists d,
    payload (defaultGenerator_Generate (codec := Examples.plainCodec) 0
               (g (Default "key")) Examples.getBare Examples.fullReader)
      = ofDefaultData d /\
    Name (dd_cookieID d) = "xsrf-cookie" /\
    dd_token d = Sessions.mintedToken /\
    dd_setCookie d = true.
Proof.
  split; [reflexivity|].
  destruct (proj1 (Generate_payload_invariant (codec := Examples.plainCodec) 0
                     (g (Default "key")) (g (Angular "XSRF-TOKEN" "X-XSRF-TOKEN"))
                     Examples.getBare Examples.fullReader) eq_refl)
    as (d & Hd & Hn & Ht & Hf).
  exists d. split; [exact Hd|]. split; [exact Hn|].
  injection Hd as <-. split; [reflexivity|reflexivity].
Defined.

Lemma defaultGenerator_Generate_mints_witness :
  Cookie_of Examples.getBare "xsrf-cookie" = inr ErrNoCookie /\
  rand.Read 20 Examples.fullReader
    = ((Examples.twentyBytes, None), Examples.dryReader) /\
  defaultGenerator_Generate (codec := Examples.plainCodec) 0
    (g (Default "key")) Examples.getBare Examples.fullReader
  = ((ofDefaultData Sessions.mintedPayload, None), Examples.dryReader).
Proof.
  split; [reflexivity|]. split; [reflexivity|].
  apply (defaultGenerator_Generate_mints (codec := Examples.plainCodec) 0
           (g (Default "key")) Examples.getBare Examples.fullReader
           Examples.dryReader ErrNoCookie Examples.twentyBytes);
    reflexivity.
Defined.

Lemma Commit_succeeds_iff_witness :
  Commit (generator := angularGenerator_Generate)
    (injector := angularInjector_Inject)
    (Angular "XSRF-TOKEN" "X-XSRF-TOKEN")
    Examples.blankWriter Examples.getBare ofOther Examples.fullReader
  = (((mkResult,
       {| written := [];
          setCookies :=
            [DisableHTTPOnly
               (SetMaxAge
                  (SetPath
                     (SetSameSite (NewCookie "XSRF-TOKEN" Sessions.mintedValue)
                        SameSiteStrictMode) "/") 86400)];
          cookieFault := None |}), ofOther), Examples.dryReader).
Proof.
  eapply (proj2 (Commit_succeeds_iff
                   (generator := angularGenerator_Generate)
                   (injector := angularInjector_Inject)
                   (Angular "XSRF-TOKEN" "X-XSRF-TOKEN")
                   Examples.blankWriter _ Examples.getBare ofOther ofOther
                   Examples.fullReader Examples.dryReader _ None
                   eq_refl eq_refl)).
  reflexivity.
Defined.

Lemma Commit_with_cookie_witness :
  Cookie_of Sessions.followUp "xsrf-cookie"
    = inl (NewCookie "xsrf-cookie" Sessions.mintedValue) /\
  Commit (generator := defaultGenerator_Generate (codec := Examples.plainCodec) 0)
    (injector := defaultInjector_Inject) (Default "key")
    Examples.claimedWriter Sessions.followUp ofOther Examples.dryReader
  = (((mkResult, Examples.claimedWriter), ofOther), Examples.dryReader).
Proof.
  split; [reflexivity|].
  apply (proj1 (Commit_with_cookie (codec := Examples.plainCodec) 0
                  Examples.claimedWriter Sessions.followUp ofOther
                  Examples.dryReader) "key"
           (NewCookie "xsrf-cookie" Sessions.mintedValue)).
  reflexivity.
Defined.

Lemma Commit_Default_first_request_witness :
  Cookie_of Examples.getBare "xsrf-cookie" = inr ErrNoCookie /\
  rand.Read 20 Examples.fullReader
    = ((Examples.twentyBytes, None), Examples.dryReader) /\
  bound
    (snd (fst (Commit
       (generator := defaultGenerator_Generate (codec := Examples.plainCodec) 0)
       (injector := defaultInjector_Inject) (Default "key")
       Examples.blankWriter Examples.getBare (ofTemplate Sessions.page)
       Examples.fullReader)))
    "XSRFToken" = Some Sessions.mintedToken /\
  Commit (generator := defaultGenerator_Generate (codec := Examples.plainCodec) 0)
    (injector := defaultInjector_Inject) (Default "key")
    Examples.claimedWriter Examples.getBare (ofTemplate Sessions.page)
    Examples.fullReader
  = ((WriteError Examples.claimedWriter StatusInternalServerError,
      ofTemplate Sessions.page), Examples.dryReader).
Proof.
  split; [reflexivity|]. split; [reflexivity|]. split.
  - rewrite (Commit_Default_first_request (codec := Examples.plainCodec) 0
               "key" Examples.blankWriter _ Examples.getBare
               (ofTemplate Sessions.page) Examples.fullReader
               Examples.dryReader ErrNoCookie Examples.twentyBytes None
               eq_refl eq_refl eq_refl).
    reflexivity.
  - apply (Commit_Default_first_request (codec := Examples.plainCodec) 0
             "key" Examples.claimedWriter Examples.claimedWriter
             Examples.getBare (ofTemplate Sessions.page) Examples.fullReader
             Examples.dryReader ErrNoCookie Examples.twentyBytes
             (Some "The header Set-Cookie is claimed")
             eq_refl eq_refl eq_refl).
Defined.

Lemma plainCodec_accepts_its_tokens (now later : Z) (k id p : string) :
  xsrftoken.Valid (Codec := Examples.plainCodec) later
    (xsrftoken.Generate (Codec := Examples.plainCodec) now k id p) k id p
  = true.
Proof. simpl. apply String.eqb_refl. Defined.

Lemma Default_Generate_then_Check_witness :
  defaultGenerator_Generate (codec := Examples.plainCodec) 0
    (g (Default "key")) Examples.getBare Examples.fullReader
    = ((ofDefaultData Sessions.mintedPayload, None), Examples.dryReader) /\
  defaultChecker_Check (codec := Examples.plainCodec) 3600000
    (c (Default "key")) Sessions.followUp = StatusOK.
Proof.
  split; [reflexivity|].
  eapply (Default_Generate_then_Check (codec := Examples.plainCodec)
            0 3600000 "key" Examples.getBare Sessions.followUp
            Examples.fullReader Examples.dryReader Sessions.mintedPayload
            (NewCookie "xsrf-cookie" Sessions.mintedValue));
    try reflexivity.
  - apply plainCodec_accepts_its_tokens.
  - discriminate.
Defined.

Lemma Angular_Generate_then_Check_witness :
  angularChecker_Check (c (Angular "XSRF-TOKEN" "X-XSRF-TOKEN"))
    Sessions.followUpEcho = StatusOK.
Proof.
  eapply (proj1 (Angular_Generate_then_Check "XSRF-TOKEN" "X-XSRF-TOKEN"
                   Examples.getBare Sessions.followUpEcho
                   Examples.fullReader Examples.dryReader _
                   (NewCookie "XSRF-TOKEN" Sessions.mintedValue)
                   eq_refl eq_refl eq_refl));
    reflexivity.
Defined.

End XsrfLaws.
